(** * salt/modules/nilrt_ip.py: networking module for NI Linux Real-Time

    A shallow embedding of the execution module that mediates between the
    ConnMan daemon (reached through pyconnman), the host interfaces (pyiface)
    and the fallback file /var/lib/connman/interfaces.config (configparser).

    Conventions of the embedding:
    - Python text is [string]; the str methods the module calls are written
      out in [PyStr] for ASCII text.
    - Python dicts are stdpp [gmap]s with string keys; the nested result
      dictionary [data] is a [gmap string pyval].
    - Exceptions are values of [exn]; a function that only reads returns a
      [result]; a function that logs, calls the daemon or writes the file
      runs in the state-and-exception monad [M] over [world].
    - The daemon's reaction to connect, disconnect and set_property is not
      decided by the module: it is the field [react] of the world. *)

From Stdlib Require Import Ascii String.
From stdpp Require Import base gmap list strings.

Set Warnings "-register-all".
Local Open Scope string_scope.

(** ** Python str operations used by the module *)
Module PyStr.

(** str.isspace on ASCII: TAB, LF, VT, FF, CR, FS, GS, RS, US and space. *)
Definition is_space (c : ascii) : bool :=
  let n := nat_of_ascii c in
  (Nat.leb 9 n && Nat.leb n 13) || (Nat.leb 28 n && Nat.leb n 32).

Fixpoint lstrip (s : string) : string :=
  match s with
  | EmptyString => EmptyString
  | String c s' => if is_space c then lstrip s' else s
  end.

Definition rstrip (s : string) : string :=
  String.rev (lstrip (String.rev s)).

(** s.strip() *)
Definition strip (s : string) : string := rstrip (lstrip s).

(** s.split(sep) for a one-character separator: empty pieces are kept. *)
Fixpoint split (sep : ascii) (s : string) : list string :=
  match s with
  | EmptyString => [EmptyString]
  | String c s' =>
      if Ascii.eqb c sep then EmptyString :: split sep s'
      else match split sep s' with
           | [] => [String c EmptyString]
           | piece :: pieces => String c piece :: pieces
           end
  end.

(** s.split() without argument: maximal runs of non-whitespace. *)
Fixpoint split_ws_from (cur : string) (s : string) : list string :=
  match s with
  | EmptyString => if String.eqb cur "" then [] else [String.rev cur]
  | String c s' =>
      if is_space c
      then (if String.eqb cur "" then split_ws_from "" s'
            else String.rev cur :: split_ws_from "" s')
      else split_ws_from (String c cur) s'
  end.

Definition split_ws (s : string) : list string := split_ws_from "" s.

(** sep.join(pieces) *)
Fixpoint join (sep : string) (pieces : list string) : string :=
  match pieces with
  | [] => ""
  | [p] => p
  | p :: ps => p +:+ sep +:+ join sep ps
  end.

(** iterating a str yields its one-character strings *)
Fixpoint chars (s : string) : list string :=
  match s with
  | EmptyString => []
  | String c s' => String c EmptyString :: chars s'
  end.

Definition lower_char (c : ascii) : ascii :=
  let n := nat_of_ascii c in
  if Nat.leb 65 n && Nat.leb n 90 then ascii_of_nat (n + 32) else c.

(** s.lower() *)
Fixpoint lower (s : string) : string :=
  match s with
  | EmptyString => EmptyString
  | String c s' => String (lower_char c) (lower s')
  end.

(** s[:-1] *)
Fixpoint drop_last (s : string) : string :=
  match s with
  | EmptyString => EmptyString
  | String c EmptyString => EmptyString
  | String c s' => String c (drop_last s')
  end.

(** s[n:] *)
Fixpoint drop_first (n : nat) (s : string) : string :=
  match n, s with
  | O, _ => s
  | S n', String _ s' => drop_first n' s'
  | S _, EmptyString => EmptyString
  end.

(** needle in s *)
Fixpoint contains (needle s : string) : bool :=
  String.prefix needle s ||
  match s with
  | EmptyString => false
  | String _ s' => contains needle s'
  end.

Definition hex_digit (n : nat) : ascii :=
  ascii_of_nat (if Nat.ltb n 10 then 48 + n else 87 + n).

Fixpoint repr_body (quote : ascii) (s : string) : string :=
  match s with
  | EmptyString => EmptyString
  | String c s' =>
      let n := nat_of_ascii c in
      let rest := repr_body quote s' in
      if Ascii.eqb c "\" then "\\" +:+ rest
      else if Ascii.eqb c quote then String "\" (String c rest)
      else if Nat.eqb n 10 then "\n" +:+ rest
      else if Nat.eqb n 13 then "\r" +:+ rest
      else if Nat.eqb n 9 then "\t" +:+ rest
      else if Nat.ltb n 32 || Nat.eqb n 127
           then "\x" +:+ String (hex_digit (n / 16)) (String (hex_digit (n mod 16)) rest)
      else String c rest
  end.

(** repr(s) of Python 3 for ASCII text: single quotes, unless the text has a
    single quote and no double quote. *)
Definition repr (s : string) : string :=
  let dquote : ascii := ascii_of_nat 34 in
  let quote : ascii :=
    if contains "'" s && negb (contains (String dquote EmptyString) s)
    then dquote else "'"%char in
  String quote (repr_body quote s) +:+ String quote "".

(** str(l) for a list of str, as '{0}'.format(l) prints it *)
Definition str_of_list (l : list string) : string :=
  "[" +:+ join ", " (repr <$> l) +:+ "]".

End PyStr.

(** ** Values, exceptions and the world *)

(** The Python major version decides one thing the module depends on:
    whether a str has the attribute __iter__ (it has in Python 3, it has
    not in Python 2). The module imports six and supports both. *)
Inductive python := Py2 | Py3.

(** Arguments a caller may pass where the module expects a list of
    nameservers: a str, a list of str, or None. *)
Inductive pyobj :=
| OStr (s : string)
| OList (l : list string)
| ONone.

(** Values stored in the result dictionaries. *)
Inductive pyval :=
| VStr (s : string)
| VBool (b : bool)
| VList (l : list string)
| VDict (d : gmap string pyval).

(** A ConnMan property value: text, a dictionary of text, or a list. *)
Inductive propval :=
| PStr (s : string)
| PDict (d : gmap string string)
| PList (l : list string).

Inductive exn :=
| KeyError (key : string)
| TypeError
| IndexError
| AttributeError
| ValueError
| IOError
| DBusException (msg : string)
| NoSectionError (section : string)
| NoOptionError (option section : string)
| ParsingError
| CommandExecutionError (msg : string).

Inductive result (A : Type) :=
| Ok (a : A)
| Raise (e : exn).
Arguments Ok {A} a.
Arguments Raise {A} e.

(** Calls that ask the daemon to change something, and what it answers:
    None, some other value, or a raised exception with its text. *)
Inductive call :=
| Connect (path : string)
| Disconnect (path : string)
| SetProperty (path name : string) (value : propval).

Inductive reply :=
| ReplyNone
| ReplyValue (v : string)
| ReplyRaise (exc : string).

(** The services of the daemon in the order get_services lists them: object
    path and properties. *)
Definition services := list (string * gmap string propval).

(** Content of INTERFACES_CONFIG as configparser.read_file sees it: a text
    whose first entry has no section header (MissingSectionHeaderError), a
    text that fails to parse otherwise, or sections of lower-cased options.
    Interpolation and the DEFAULT section are not modelled: options are
    read back verbatim. *)
Inductive file_content :=
| MissingSectionHeader
| Unparsable
| Sections (store : gmap string (gmap string string)).

Module pyiface.
Record Interface := {
  name : string;
  hwaddr : string;
  flags : Z
}.
End pyiface.

Record world := {
  daemon : services;
  react : call → services → reply * services;
  host : list pyiface.Interface;
  config_file : option file_content;
  calls : list call;
  log : list string
}.

Definition M (A : Type) : Type := world → result A * world.

#[global] Instance result_ret : MRet result := λ A a, Ok a.
#[global] Instance result_bind : MBind result := λ A B f r,
  match r with
  | Ok a => f a
  | Raise e => Raise e
  end.

Definition ret {A} (a : A) : M A := λ w, (Ok a, w).
#[global] Instance M_ret : MRet M := @ret.
#[global] Instance M_bind : MBind M := λ A B f m w,
  match m w with
  | (Ok a, w') => f a w'
  | (Raise e, w') => (Raise e, w')
  end.

Definition raise {A} (e : exn) : M A := λ w, (Raise e, w).

(** a computation that only reads the world *)
Definition read {A} (f : world → result A) : M A := λ w, (f w, w).

Definition add_log (w : world) (msgs : list string) : world :=
  {| daemon := daemon w; react := react w; host := host w;
     config_file := config_file w; calls := calls w;
     log := log w ++ msgs |}.

(** log.warning(msg) *)
Definition log_warning (msg : string) : M unit := λ w, (Ok (), add_log w [msg]).

(** a call that reaches the daemon: it is recorded, the daemon reacts *)
Definition issue (c : call) : M reply := λ w,
  let '(r, d) := react w c (daemon w) in
  (Ok r,
   {| daemon := d; react := react w; host := host w;
      config_file := config_file w; calls := calls w ++ [c];
      log := log w |}).

(** with fopen(INTERFACES_CONFIG, 'w') as f: parser.write(f) *)
Definition write_config (store : gmap string (gmap string string)) : M unit := λ w,
  (Ok (),
   {| daemon := daemon w; react := react w; host := host w;
      config_file := Some (Sections store); calls := calls w;
      log := log w |}).

Fixpoint for_each {A S : Type} (items : list A) (body : A → S → M S) (s : S) : M S :=
  match items with
  | [] => ret s
  | x :: rest => s' ← body x s; for_each rest body s'
  end.

Definition nl : string := String (ascii_of_nat 10) EmptyString.

(** ** pyconnman: reading the daemon *)
Module pyconnman.

(** ConnManager().get_services() *)
Definition get_services (d : services) : services := d.

Fixpoint find_service (d : services) (path : string) : option (gmap string propval) :=
  match d with
  | [] => None
  | (p, props) :: rest => if String.eqb p path then Some props else find_service rest path
  end.

(** ConnService(path).get_property(name) *)
Definition get_property (d : services) (path prop : string) : result propval :=
  match find_service d path with
  | None => Raise (DBusException ("no such service: " +:+ path))
  | Some props =>
      match props !! prop with
      | Some v => Ok v
      | None => Raise (KeyError prop)
      end
  end.

End pyconnman.

(** value[key] on a property value *)
Definition subscript (value : propval) (key : string) : result string :=
  match value with
  | PDict d =>
      match d !! key with
      | Some v => Ok v
      | None => Raise (KeyError key)
      end
  | _ => Raise TypeError
  end.

(** value[key] = v on a property value *)
Definition assign (value : propval) (key v : string) : result propval :=
  match value with
  | PDict d => Ok (PDict (<[key := v]> d))
  | _ => Raise TypeError
  end.

(** value == 'text' *)
Definition equals (value : propval) (text : string) : bool :=
  match value with
  | PStr s => String.eqb s text
  | _ => false
  end.

(** for x in value *)
Definition iterate (value : propval) : list string :=
  match value with
  | PStr s => PyStr.chars s
  | PList l => l
  | PDict d => (map_to_list d).*1
  end.

(** data[outer][inner] = v *)
Definition setitem2 (data : gmap string pyval) (outer inner : string) (v : pyval)
  : result (gmap string pyval) :=
  match data !! outer with
  | None => Raise (KeyError outer)
  | Some (VDict d) => Ok (<[outer := VDict (<[inner := v]> d)]> data)
  | Some _ => Raise TypeError
  end.

(** ** configparser.ConfigParser, after read_file *)
Module configparser.

Definition has_section (parser : gmap string (gmap string string)) (section : string) : bool :=
  bool_decide (is_Some (parser !! section)).

Definition add_section (parser : gmap string (gmap string string)) (section : string)
  : gmap string (gmap string string) :=
  <[section := ∅]> parser.

(** optionxform *)
Definition optionxform (option : string) : string := PyStr.lower option.

Definition set (parser : gmap string (gmap string string)) (section option value : string)
  : result (gmap string (gmap string string)) :=
  match parser !! section with
  | None => Raise (NoSectionError section)
  | Some options => Ok (<[section := <[optionxform option := value]> options]> parser)
  end.

Definition get (parser : gmap string (gmap string string)) (section option : string)
  : result string :=
  match parser !! section with
  | None => Raise (NoSectionError section)
  | Some options =>
      match options !! optionxform option with
      | Some v => Ok v
      | None => Raise (NoOptionError option section)
      end
  end.

End configparser.

(** parser = ConfigParser(); if the file exists, read it, passing over a
    MissingSectionHeaderError (lines 240-246 and 436-442). *)
Definition read_config (file : option file_content)
  : result (gmap string (gmap string string)) :=
  match file with
  | None => Ok ∅
  | Some MissingSectionHeader => Ok ∅
  | Some Unparsable => Raise ParsingError
  | Some (Sections store) => Ok store
  end.

(** ** The module *)

Definition SERVICE_PATH : string := "/net/connman/service/".
Definition IFF_LOOPBACK : Z := 8.
Definition IFF_RUNNING : Z := 64.

Section nilrt_ip.

(** The interpreter the module runs on. *)
Variable py : python.
(** salt.utils.validate.net.ipv4_addr and salt.utils.validate.net.netmask *)
Variable ipv4_addr : string → bool.
Variable netmask : string → bool.
(** '{0}'.format(service) for the ConnService object of a path *)
Variable str_of_service : string → string.

Definition _add_path (service : string) : string := SERVICE_PATH +:+ service.

Definition _get_services (d : services) : list string :=
  (λ entry, PyStr.drop_first (String.length SERVICE_PATH) entry.1)
    <$> pyconnman.get_services d.

Definition _connected (d : services) (service : string) : result bool :=
  state ← pyconnman.get_property d (_add_path service) "State";
  mret (equals state "online" || equals state "ready").

(** hasattr(value, '__iter__') *)
Definition has_iter (value : pyobj) : bool :=
  match value with
  | OList _ => true
  | OStr _ => match py with Py3 => true | Py2 => false end
  | ONone => false
  end.

(** '{0}'.format(value) *)
Definition format_obj (value : pyobj) : string :=
  match value with
  | OStr s => s
  | OList l => PyStr.str_of_list l
  | ONone => "None"
  end.

Definition _space_delimited_list (value : pyobj) : bool * string :=
  if has_iter value then (true, "space-delimited string")
  else
    match value with
    | OStr s =>
        match PyStr.split_ws s with
        | [] => (false, format_obj value +:+ " is not a valid list." +:+ nl)
        | _ => (true, "space-delimited string")
        end
    | _ => (false, format_obj value +:+ " is not a valid list." +:+ nl)
    end.

Definition _validate_ipv4 (value : list string) : bool * string :=
  match value with
  | [v0; v1; v2] =>
      if negb (ipv4_addr (PyStr.strip v0))
      then (false, "Invalid ip address: " +:+ v0 +:+ " for ipv4 option")
      else if negb (netmask (PyStr.strip v1))
      then (false, "Invalid netmask: " +:+ v1 +:+ " for ipv4 option")
      else if negb (ipv4_addr (PyStr.strip v2))
      then (false, "Invalid gateway: " +:+ v2 +:+ " for ipv4 option")
      else (true, "")
  | _ => (false, "Invalid value: " +:+ PyStr.str_of_list value +:+ " for ipv4 option")
  end.

Fixpoint first_bound (d : services) (candidates : list string) (iface : string)
  : result (option string) :=
  match candidates with
  | [] => Ok None
  | _service :: rest =>
      ethernet ← pyconnman.get_property d (_add_path _service) "Ethernet";
      bound ← subscript ethernet "Interface";
      if String.eqb bound iface then Ok (Some _service)
      else first_bound d rest iface
  end.

Definition _interface_to_service (d : services) (iface : string) : result (option string) :=
  first_bound d (_get_services d) iface.

(** not service *)
Definition not_service (service : option string) : bool :=
  match service with
  | None => true
  | Some s => String.eqb s ""
  end.

Definition warn_ipv4 (info service : string) : string :=
  "Unable to get IPv4 " +:+ info +:+ " for service " +:+ service +:+ nl.

Definition warn_ipv6 (info service : string) : string :=
  "Unable to get IPv6 " +:+ info +:+ " for service " +:+ service +:+ nl.

(** lines 184-187: the daemon's Method as a request mode *)
Definition requestmode_of (value : string) : string :=
  if String.eqb value "dhcp" then "dhcp_linklocal"
  else if String.eqb value "manual" || String.eqb value "fixed" then "static"
  else value.

(** lines 182-188: key and text stored for one field of the IPv4 properties *)
Definition ipv4_entry (info value : string) : string * string :=
  if String.eqb info "Method" then ("requestmode", requestmode_of value)
  else (info, value).

(** body of the loop over ['Method', 'Address', 'Netmask', 'Gateway'] *)
Definition ipv4_field (service : string) (ipv4Info : propval) (info : string)
    (data : gmap string pyval) : M (gmap string pyval) :=
  match subscript ipv4Info info with
  | Raise _ => _ ← log_warning (warn_ipv4 info service); ret data
  | Ok value =>
      let entry := ipv4_entry info value in
      match setitem2 data "ipv4" (PyStr.lower entry.1) (VStr entry.2) with
      | Ok data' => ret data'
      | Raise _ => _ ← log_warning (warn_ipv4 entry.1 service); ret data
      end
  end.

(** lines 175-178: the property set the IPv4 fields are read from *)
Definition ipv4_properties (d : services) (path : string) : result propval :=
  current ← pyconnman.get_property d path "IPv4";
  method ← subscript current "Method";
  let ipv4 := if String.eqb method "manual" then "IPv4.Configuration" else "IPv4" in
  pyconnman.get_property d path ipv4.

(** body of the loop over ['Address', 'Prefix', 'Gateway'] *)
Definition ipv6_field (service : string) (ipv6Info : propval) (info : string)
    (data : gmap string pyval) : M (gmap string pyval) :=
  match subscript ipv6Info info with
  | Raise _ => _ ← log_warning (warn_ipv6 info service); ret data
  | Ok value =>
      match setitem2 data "ipv6" (PyStr.lower info) (VList [value]) with
      | Ok data' => ret data'
      | Raise _ => _ ← log_warning (warn_ipv6 info service); ret data
      end
  end.

Definition supportedrequestmodes : pyval := VList ["static"; "dhcp_linklocal"].

Definition _get_service_info (service : string) : M (gmap string pyval) :=
  let path := _add_path service in
  type ← read (λ w, pyconnman.get_property (daemon w) path "Type");
  ethernet ← read (λ w, pyconnman.get_property (daemon w) path "Ethernet");
  interface ← read (λ _, subscript ethernet "Interface");
  ethernet' ← read (λ w, pyconnman.get_property (daemon w) path "Ethernet");
  address ← read (λ _, subscript ethernet' "Address");
  let data : gmap string pyval :=
    <["hwaddr" := VStr address]>
      (<["connectionid" := VStr interface]>
         (<["wireless" := VBool (equals type "wifi")]>
            (<["label" := VStr service]> ∅))) in
  state ← read (λ w, pyconnman.get_property (daemon w) path "State");
  data ←
    (if equals state "ready" || equals state "online" then
       let data := <["up" := VBool true]> data in
       let data := <["ipv4" := VDict (<["gateway" := VStr "0.0.0.0"]> ∅)]> data in
       ipv4Info ← read (λ w, ipv4_properties (daemon w) path);
       data ← for_each ["Method"; "Address"; "Netmask"; "Gateway"]
                       (ipv4_field service ipv4Info) data;
       ipv6Info ← read (λ w, pyconnman.get_property (daemon w) path "IPv6");
       data ← for_each ["Address"; "Prefix"; "Gateway"]
                       (ipv6_field service ipv6Info) data;
       nameservers ← read (λ w, pyconnman.get_property (daemon w) path "Nameservers");
       read (λ _, setitem2 data "ipv4" "dns" (VList (iterate nameservers)))
     else ret (<["up" := VBool false]> data));
  if bool_decide (is_Some (data !! "ipv4"))
  then read (λ _, setitem2 data "ipv4" "supportedrequestmodes" supportedrequestmodes)
  else ret data.

(** 'interface_{0}'.format(''.join(hwaddr.split(':'))) *)
Definition section_of (hwaddr : string) : string :=
  "interface_" +:+ PyStr.join "" (PyStr.split ":" hwaddr).

Definition _get_static_info (interface : pyiface.Interface) (w : world)
  : result (gmap string pyval) :=
  parser ← read_config (config_file w);
  let hwaddr := PyStr.drop_last (pyiface.hwaddr interface) in
  let block : gmap string pyval :=
    <["requestmode" := VStr "static"]>
      (<["supportedrequestmodes" := supportedrequestmodes]> ∅) in
  let data : gmap string pyval :=
    <["wireless" := VBool false]>
      (<["ipv4" := VDict block]>
         (<["up" := VBool false]>
            (<["hwaddr" := VStr hwaddr]>
               (<["label" := VStr (pyiface.name interface)]>
                  (<["connectionid" := VStr (pyiface.name interface)]> ∅))))) in
  let section := section_of hwaddr in
  if configparser.has_section parser section then
    compound ← configparser.get parser section "IPv4";
    let ipv4_information := PyStr.split "/" compound in
    first ← match ipv4_information !! 0%nat with
            | Some x => Ok x | None => Raise IndexError end;
    data ← setitem2 data "ipv4" "address" (VStr first);
    csv ← configparser.get parser section "Nameservers";
    data ← setitem2 data "ipv4" "dns" (VList (PyStr.split "," csv));
    second ← match ipv4_information !! 1%nat with
             | Some x => Ok x | None => Raise IndexError end;
    data ← setitem2 data "ipv4" "netmask" (VStr second);
    third ← match ipv4_information !! 2%nat with
            | Some x => Ok x | None => Raise IndexError end;
    setitem2 data "ipv4" "gateway" (VStr third)
  else Ok data.

Definition _get_info (interface : pyiface.Interface) : M (gmap string pyval) :=
  service ← read (λ w, _interface_to_service (daemon w) (pyiface.name interface));
  match service with
  | Some service => _get_service_info service
  | None => read (_get_static_info interface)
  end.

Definition get_interfaces_details : M (list (gmap string pyval)) :=
  λ w,
    for_each (host w)
      (λ interface (interfaces : list (gmap string pyval)),
         if Z.eqb (Z.land (pyiface.flags interface) IFF_LOOPBACK) 0
         then info ← _get_info interface; ret (interfaces ++ [info])%list
         else ret interfaces)
      [] w.

Definition invalid_interface_name (interface : string) : exn :=
  CommandExecutionError ("Invalid interface name: " +:+ interface).

Definition up (interface : string) : M bool :=
  service ← read (λ w, _interface_to_service (daemon w) interface);
  if not_service service then raise (invalid_interface_name interface)
  else
    let service := default "" service in
    connected ← read (λ w, _connected (daemon w) service);
    if negb connected then
      let path := _add_path service in
      state ← issue (Connect path);
      match state with
      | ReplyNone => ret true
      | ReplyValue _ => ret false
      | ReplyRaise _ =>
          raise (CommandExecutionError
                   ("Couldn't enable service: " +:+ str_of_service path +:+ nl))
      end
    else ret true.

Definition enable (interface : string) : M bool := up interface.

Definition down (interface : string) : M bool :=
  service ← read (λ w, _interface_to_service (daemon w) interface);
  if not_service service then raise (invalid_interface_name interface)
  else
    let service := default "" service in
    connected ← read (λ w, _connected (daemon w) service);
    if (connected : bool) then
      let path := _add_path service in
      state ← issue (Disconnect path);
      match state with
      | ReplyNone => ret true
      | ReplyValue _ => ret false
      | ReplyRaise _ =>
          raise (CommandExecutionError
                   ("Couldn't disable service: " +:+ str_of_service path +:+ nl))
      end
    else ret true.

Definition disable (interface : string) : M bool := down interface.

(** service.set_property(name, value) inside a try block whose handler
    raises CommandExecutionError(prefix + str(service) + '\nError: ' + exc) *)
Definition set_property_or (prefix path prop : string) (value : propval) : M unit :=
  answer ← issue (SetProperty path prop value);
  match answer with
  | ReplyRaise exc =>
      raise (CommandExecutionError
               (prefix +:+ str_of_service path +:+ nl +:+ "Error: " +:+ exc +:+ nl))
  | _ => ret ()
  end.

Definition set_dhcp_linklocal_all (interface : string) : M bool :=
  service ← read (λ w, _interface_to_service (daemon w) interface);
  if not_service service then raise (invalid_interface_name interface)
  else
    let path := _add_path (default "" service) in
    ipv4 ← read (λ w, pyconnman.get_property (daemon w) path "IPv4.Configuration");
    ipv4 ← read (λ _, assign ipv4 "Method" "dhcp");
    ipv4 ← read (λ _, assign ipv4 "Address" "");
    ipv4 ← read (λ _, assign ipv4 "Netmask" "");
    ipv4 ← read (λ _, assign ipv4 "Gateway" "");
    let prefix := "Couldn't set dhcp linklocal for service: " in
    _ ← set_property_or prefix path "IPv4.Configuration" ipv4;
    _ ← set_property_or prefix path "Nameservers.Configuration" (PList [""]);
    ret true.

(** pyiface.Interface(name=interface).hwaddr: an ioctl on the named device *)
Definition hwaddr_of (ifaces : list pyiface.Interface) (interface : string) : result string :=
  match List.find (λ i, String.eqb (pyiface.name i) interface) ifaces with
  | Some i => Ok (pyiface.hwaddr i)
  | None => Raise IOError
  end.

(** interface in pyiface.getIfaces(), read as: a host interface has this name *)
Definition in_getIfaces (ifaces : list pyiface.Interface) (interface : string) : bool :=
  existsb (λ i, String.eqb (pyiface.name i) interface) ifaces.

(** The parser is filled before interface.hwaddr is first read (line 443);
    the whole parser is written back at the end. *)
Definition _configure_static_interface (interface : string) (settings : gmap string string)
  : M bool :=
  parser ← read (λ w, read_config (config_file w));
  full ← read (λ w, hwaddr_of (host w) interface);
  let hwaddr := PyStr.drop_last full in
  let hwaddr_section_number := PyStr.join "" (PyStr.split ":" hwaddr) in
  let section := section_of hwaddr in
  let parser :=
    if negb (configparser.has_section parser section)
    then configparser.add_section parser section else parser in
  let ip_address := default "0.0.0.0" (settings !! "ip") in
  let netmask := default "0.0.0.0" (settings !! "netmask") in
  let gateway := default "0.0.0.0" (settings !! "gateway") in
  let dns_servers := default "" (settings !! "dns") in
  let name := default ("ethernet_cable_" +:+ hwaddr_section_number) (settings !! "name") in
  parser ← read (λ _, configparser.set parser section "IPv4"
                        (ip_address +:+ "/" +:+ netmask +:+ "/" +:+ gateway));
  parser ← read (λ _, configparser.set parser section "Nameservers" dns_servers);
  parser ← read (λ _, configparser.set parser section "Name" name);
  parser ← read (λ _, configparser.set parser section "MAC" hwaddr);
  parser ← read (λ _, configparser.set parser section "Type" "ethernet");
  _ ← write_config parser;
  ret true.

(** if value: *)
Definition truthy (value : pyobj) : bool :=
  match value with
  | OStr s => negb (String.eqb s "")
  | OList l => negb (bool_decide (l = []))
  | ONone => false
  end.

(** isinstance(value, list) *)
Definition is_list (value : pyobj) : bool :=
  match value with
  | OList _ => true
  | _ => false
  end.

(** value.split(' ') *)
Definition split_space (value : pyobj) : result pyobj :=
  match value with
  | OStr s => Ok (OList (PyStr.split " " s))
  | _ => Raise AttributeError
  end.

(** ','.join(value) *)
Definition join_comma (value : pyobj) : result string :=
  match value with
  | OStr s => Ok (PyStr.join "," (PyStr.chars s))
  | OList l => Ok (PyStr.join "," l)
  | ONone => Raise TypeError
  end.

(** [dbus.String('{0}'.format(d)) for d in value] *)
Definition dbus_strings (value : pyobj) : result propval :=
  match value with
  | OStr s => Ok (PList (PyStr.chars s))
  | OList l => Ok (PList l)
  | ONone => Raise TypeError
  end.

Definition set_static_all (interface address netmask gateway : string) (nameservers : pyobj)
  : M bool :=
  service ← read (λ w, _interface_to_service (daemon w) interface);
  if not_service service then raise (invalid_interface_name interface)
  else
    let '(validate, msg) := _validate_ipv4 [address; netmask; gateway] in
    if negb validate then raise (CommandExecutionError msg)
    else
      nameservers ←
        (if truthy nameservers then
           let '(validate, msg) := _space_delimited_list nameservers in
           if negb validate then raise (CommandExecutionError msg)
           else if negb (is_list nameservers) then read (λ _, split_space nameservers)
           else ret nameservers
         else ret nameservers);
      service ← read (λ w, _interface_to_service (daemon w) interface);
      if not_service service then
        present ← read (λ w, Ok (in_getIfaces (host w) interface));
        if (present : bool) then
          dns ← read (λ _, join_comma nameservers);
          _configure_static_interface interface
            (<["gateway" := gateway]>
               (<["netmask" := netmask]>
                  (<["dns" := dns]>
                     (<["ip" := address]> ∅))))
        else raise (invalid_interface_name interface)
      else
        let path := _add_path (default "" service) in
        ipv4 ← read (λ w, pyconnman.get_property (daemon w) path "IPv4.Configuration");
        ipv4 ← read (λ _, assign ipv4 "Method" "manual");
        ipv4 ← read (λ _, assign ipv4 "Address" address);
        ipv4 ← read (λ _, assign ipv4 "Netmask" netmask);
        ipv4 ← read (λ _, assign ipv4 "Gateway" gateway);
        let prefix := "Couldn't set manual settings for service: " in
        _ ← set_property_or prefix path "IPv4.Configuration" ipv4;
        _ ← (if truthy nameservers then
               servers ← read (λ _, dbus_strings nameservers);
               set_property_or prefix path "Nameservers.Configuration" servers
             else ret ());
        ret true.

End nilrt_ip.

(** ** What the two loops of _get_service_info leave in the result *)

(** one turn of the loop over the IPv4 fields, seen on the ipv4 block *)
Definition fill_ipv4 (ipv4Info : propval) (block : gmap string pyval) (info : string)
  : gmap string pyval :=
  match subscript ipv4Info info with
  | Ok value =>
      <[PyStr.lower (ipv4_entry info value).1 := VStr (ipv4_entry info value).2]> block
  | Raise _ => block
  end.

Definition ipv4_warnings (service : string) (ipv4Info : propval) (fields : list string)
  : list string :=
  omap (λ info, match subscript ipv4Info info with
                | Ok _ => None
                | Raise _ => Some (warn_ipv4 info service)
                end) fields.

Definition ipv4_fields : list string := ["Method"; "Address"; "Netmask"; "Gateway"].
Definition ipv6_fields : list string := ["Address"; "Prefix"; "Gateway"].

(** label, wireless, connectionid and hwaddr of a live service *)
Definition live_header (service : string) (type : propval) (interface address : string)
  : gmap string pyval :=
  <["hwaddr" := VStr address]>
    (<["connectionid" := VStr interface]>
       (<["wireless" := VBool (equals type "wifi")]>
          (<["label" := VStr service]> ∅))).

(** the result for a service that is ready or online *)
Definition live_up (service : string) (type : propval) (interface address : string)
    (ipv4Info nameservers : propval) : gmap string pyval :=
  <["ipv4" := VDict (<["supportedrequestmodes" := supportedrequestmodes]>
                      (<["dns" := VList (iterate nameservers)]>
                         (foldl (fill_ipv4 ipv4Info)
                                (<["gateway" := VStr "0.0.0.0"]> ∅) ipv4_fields)))]>
    (<["up" := VBool true]> (live_header service type interface address)).

Definition is_up (state : propval) : bool := equals state "ready" || equals state "online".

(** ** The outcomes of _get_service_info that return a result *)

Inductive service_info (w : world) (service : string)
  : gmap string pyval → world → Prop :=
| service_info_down type ethernet interface address state :
    pyconnman.get_property (daemon w) (_add_path service) "Type" = Ok type →
    pyconnman.get_property (daemon w) (_add_path service) "Ethernet" = Ok ethernet →
    subscript ethernet "Interface" = Ok interface →
    subscript ethernet "Address" = Ok address →
    pyconnman.get_property (daemon w) (_add_path service) "State" = Ok state →
    is_up state = false →
    service_info w service
      (<["up" := VBool false]> (live_header service type interface address)) w
| service_info_up type ethernet interface address state ipv4Info ipv6Info nameservers :
    pyconnman.get_property (daemon w) (_add_path service) "Type" = Ok type →
    pyconnman.get_property (daemon w) (_add_path service) "Ethernet" = Ok ethernet →
    subscript ethernet "Interface" = Ok interface →
    subscript ethernet "Address" = Ok address →
    pyconnman.get_property (daemon w) (_add_path service) "State" = Ok state →
    is_up state = true →
    ipv4_properties (daemon w) (_add_path service) = Ok ipv4Info →
    pyconnman.get_property (daemon w) (_add_path service) "IPv6" = Ok ipv6Info →
    pyconnman.get_property (daemon w) (_add_path service) "Nameservers" = Ok nameservers →
    service_info w service
      (live_up service type interface address ipv4Info nameservers)
      (add_log w (ipv4_warnings service ipv4Info ipv4_fields
                  ++ ((λ info, warn_ipv6 info service) <$> ipv6_fields))).

(** ** The outcomes of _get_static_info that return a result *)

Definition static_block : gmap string pyval :=
  <["requestmode" := VStr "static"]>
    (<["supportedrequestmodes" := supportedrequestmodes]> ∅).

(** the record returned when the file has no section for the interface *)
Definition static_default (interface : pyiface.Interface) : gmap string pyval :=
  <["wireless" := VBool false]>
    (<["ipv4" := VDict static_block]>
       (<["up" := VBool false]>
          (<["hwaddr" := VStr (PyStr.drop_last (pyiface.hwaddr interface))]>
             (<["label" := VStr (pyiface.name interface)]>
                (<["connectionid" := VStr (pyiface.name interface)]> ∅))))).

(** the record returned when the section is found *)
Definition static_found (interface : pyiface.Interface)
    (address netmask gateway : string) (dns : list string) : gmap string pyval :=
  <["ipv4" := VDict (<["gateway" := VStr gateway]>
                      (<["netmask" := VStr netmask]>
                         (<["dns" := VList dns]>
                            (<["address" := VStr address]> static_block))))]>
    (static_default interface).

Inductive static_info (w : world) (interface : pyiface.Interface)
  : gmap string pyval → Prop :=
| static_info_default parser :
    read_config (config_file w) = Ok parser →
    parser !! section_of (PyStr.drop_last (pyiface.hwaddr interface)) = None →
    static_info w interface (static_default interface)
| static_info_found parser fields compound csv address netmask gateway rest :
    read_config (config_file w) = Ok parser →
    parser !! section_of (PyStr.drop_last (pyiface.hwaddr interface)) = Some fields →
    fields !! "ipv4" = Some compound →
    fields !! "nameservers" = Some csv →
    PyStr.split "/" compound = address :: netmask :: gateway :: rest →
    static_info w interface
      (static_found interface address netmask gateway (PyStr.split "," csv)).

(** ** What _configure_static_interface leaves in the file *)

(** the five options written into the section of the interface *)
Definition upsert_fields (old : gmap string string) (hwaddr : string)
    (settings : gmap string string) : gmap string string :=
  <["type" := "ethernet"]>
    (<["mac" := hwaddr]>
       (<["name" := default ("ethernet_cable_" +:+ PyStr.join "" (PyStr.split ":" hwaddr))
                            (settings !! "name")]>
          (<["nameservers" := default "" (settings !! "dns")]>
             (<["ipv4" := default "0.0.0.0" (settings !! "ip") +:+ "/" +:+
                          default "0.0.0.0" (settings !! "netmask") +:+ "/" +:+
                          default "0.0.0.0" (settings !! "gateway")]> old)))).

Definition upsert (parser : gmap string (gmap string string)) (hwaddr : string)
    (settings : gmap string string) : gmap string (gmap string string) :=
  <[section_of hwaddr :=
      upsert_fields (default ∅ (parser !! section_of hwaddr)) hwaddr settings]> parser.

Definition with_file (w : world) (store : gmap string (gmap string string)) : world :=
  {| daemon := daemon w; react := react w; host := host w;
     config_file := Some (Sections store); calls := calls w; log := log w |}.

(** the settings set_static_all passes to the fallback *)
Definition static_settings (address netmask gateway dns : string) : gmap string string :=
  <["gateway" := gateway]>
    (<["netmask" := netmask]>
       (<["dns" := dns]>
          (<["ip" := address]> ∅))).

(** ** Concrete inputs

    Stand-ins for the two salt validators and a small host, on which the
    module is run in the examples below. *)
Module Sample.

Definition is_digit (c : ascii) : bool :=
  let n := nat_of_ascii c in Nat.leb 48 n && Nat.leb n 57.

Fixpoint all_digits (s : string) : bool :=
  match s with
  | EmptyString => true
  | String c s' => is_digit c && all_digits s'
  end.

Fixpoint number (acc : nat) (s : string) : nat :=
  match s with
  | EmptyString => acc
  | String c s' => number (10 * acc + (nat_of_ascii c - 48)) s'
  end.

Definition octet (s : string) : bool :=
  negb (String.eqb s EmptyString) && Nat.leb (String.length s) 3
  && all_digits s && Nat.leb (number 0 s) 255.

(** four decimal octets separated by dots *)
Definition dotted_quad (s : string) : bool :=
  match PyStr.split "." s with
  | [a; b; c; d] => octet a && octet b && octet c && octet d
  | _ => false
  end.

Definition service_text (path : string) : string := "<ConnService " +:+ path +:+ ">".

Definition eth0_service : string := "ethernet_0080aabbccdd_cable".
Definition eth0_path : string := "/net/connman/service/ethernet_0080aabbccdd_cable".

(** IPv4 of the service: no Gateway has been assigned *)
Definition eth0_ipv4 (method : string) : propval :=
  PDict (<["Method" := method]>
           (<["Address" := "192.168.1.7"]>
              (<["Netmask" := "255.255.255.0"]> ∅))).

Definition eth0_ipv6 : propval :=
  PDict (<["Address" := "fe80::1"]> (<["Prefix" := "64"]> ∅)).

Definition eth0_ethernet : propval :=
  PDict (<["Interface" := "eth0"]> (<["Address" := "00:80:AA:BB:CC:DD"]> ∅)).

Definition eth0_props (state method : string) : gmap string propval :=
  <["Type" := PStr "ethernet"]>
  (<["State" := PStr state]>
  (<["Ethernet" := eth0_ethernet]>
  (<["IPv4" := eth0_ipv4 method]>
  (<["IPv4.Configuration" := PDict (<["Method" := method]> ∅)]>
  (<["IPv6" := eth0_ipv6]>
  (<["Nameservers" := PList ["192.168.1.1"]]> ∅)))))).

Definition quiet (c : call) (d : services) : reply * services := (ReplyNone, d).

Definition eth0 : pyiface.Interface :=
  {| pyiface.name := "eth0"; pyiface.hwaddr := "00:80:aa:bb:cc:dd:"; pyiface.flags := 4163 |}.
Definition eth1 : pyiface.Interface :=
  {| pyiface.name := "eth1"; pyiface.hwaddr := "aa:bb:cc:dd:ee:ff:"; pyiface.flags := 4099 |}.
Definition lo : pyiface.Interface :=
  {| pyiface.name := "lo"; pyiface.hwaddr := "00:00:00:00:00:00:"; pyiface.flags := 73 |}.

(** eth0 is a live service in the given state; eth1 has no service. *)
Definition box (state method : string) (file : option file_content) : world :=
  {| daemon := [(eth0_path, eth0_props state method)];
     react := quiet;
     host := [lo; eth0; eth1];
     config_file := file;
     calls := [];
     log := [] |}.

Definition other_section : gmap string string :=
  <["ipv4" := "172.16.0.2/255.255.0.0/172.16.0.1"]>
  (<["nameservers" := "172.16.0.1"]>
  (<["name" := "ethernet_cable_001122334455"]>
  (<["mac" := "00:11:22:33:44:55"]>
  (<["type" := "ethernet"]> ∅)))).

Definition one_section : file_content :=
  Sections (<["interface_001122334455" := other_section]> ∅).

(** what live normalization returns for eth0 when it is ready or online *)
Definition eth0_info (method : string) : gmap string pyval :=
  live_up eth0_service (PStr "ethernet") "eth0" "00:80:AA:BB:CC:DD"
          (eth0_ipv4 method) (PList ["192.168.1.1"]).

(** the warnings logged on the way *)
Definition eth0_warnings : list string :=
  [warn_ipv4 "Gateway" eth0_service;
   warn_ipv6 "Address" eth0_service;
   warn_ipv6 "Prefix" eth0_service;
   warn_ipv6 "Gateway" eth0_service].

End Sample.

(** ** The rest of the module: printing a record, building an interface *)

(** str.splitlines() on ASCII text: a line ends at LF, CR, CR LF, VT, FF,
    FS, GS or RS; the text after the last break is a line unless it is
    empty. *)
Definition is_linebreak (c : ascii) : bool :=
  let n := nat_of_ascii c in
  (Nat.leb 10 n && Nat.leb n 13) || (Nat.leb 28 n && Nat.leb n 30).

Fixpoint splitlines_from (cur : string) (s : string) : list string :=
  match s with
  | EmptyString => if String.eqb cur "" then [] else [String.rev cur]
  | String c s' =>
      if is_linebreak c then
        String.rev cur ::
        match s' with
        | String c' s'' =>
            if Nat.eqb (nat_of_ascii c) 13 && Nat.eqb (nat_of_ascii c') 10
            then splitlines_from "" s''
            else splitlines_from "" s'
        | EmptyString => []
        end
      else splitlines_from (String c cur) s'
  end.

Definition splitlines (s : string) : list string := splitlines_from "" s.

(** a <= b on str: code points compared from the left, a prefix first *)
Definition str_le (a b : string) : bool :=
  match String.compare a b with
  | Gt => false
  | _ => true
  end.

Fixpoint insert_sorted {V} (item : string * V) (items : list (string * V))
  : list (string * V) :=
  match items with
  | [] => [item]
  | other :: rest =>
      if str_le item.1 other.1 then item :: items
      else other :: insert_sorted item rest
  end.

(** sorted(dictionary.items()): the keys of a dictionary are distinct, so
    the order is the order of the keys *)
Definition sorted_items {V} (dictionary : gmap string V) : list (string * V) :=
  foldr insert_sorted [] (map_to_list dictionary).

(** six.text_type(val) for a value that is neither a dict nor a list *)
Definition text_of_bool (b : bool) : string := if b then "True" else "False".

(** ret after the loop of _dict_to_string, given what each value adds to it
    under its key *)
Definition joined (parts : gmap string (string → string)) : string :=
  String.concat "" ((λ item : string * (string → string), item.2 item.1)
                      <$> sorted_items parts).

(** what one item of the dictionary adds to ret (lines 221-230) *)
Fixpoint added_text (val : pyval) (key : string) {struct val} : string :=
  match val with
  | VDict d =>
      String.concat ""
        ((λ line, key +:+ "-" +:+ line +:+ nl) <$> splitlines (joined (added_text <$> d)))
  | VList l =>
      key +:+ ": " +:+ String.concat "" ((λ item, item +:+ " ") <$> l) +:+ nl
  | VStr s => key +:+ ": " +:+ s +:+ nl
  | VBool b => key +:+ ": " +:+ text_of_bool b +:+ nl
  end.

Definition _dict_to_string (dictionary : gmap string pyval) : list string :=
  splitlines (joined (added_text <$> dictionary)).

(** value == 'text' on a stored value *)
Definition is_text (value : pyval) (text : string) : bool :=
  match value with
  | VStr s => String.eqb s text
  | _ => false
  end.

(** the loop of get_interface over the records *)
Fixpoint first_record (records : list (gmap string pyval)) (iface : string)
  : result (option (list string)) :=
  match records with
  | [] => Ok None
  | _interface :: rest =>
      match _interface !! "connectionid" with
      | None => Raise (KeyError "connectionid")
      | Some connectionid =>
          if is_text connectionid iface then Ok (Some (_dict_to_string _interface))
          else first_record rest iface
      end
  end.

Definition get_interface (iface : string) : M (option (list string)) :=
  _interfaces ← get_interfaces_details;
  read (λ _, first_record _interfaces iface).

(** value == 'text' on an argument *)
Definition arg_is (value : pyobj) (text : string) : bool :=
  match value with
  | OStr s => String.eqb s text
  | _ => false
  end.

(** dns += val *)
Definition extend (dns : list string) (val : pyobj) : result (list string) :=
  match val with
  | OStr s => Ok (dns ++ PyStr.chars s)%list
  | OList l => Ok (dns ++ l)%list
  | ONone => Raise TypeError
  end.

(** the loop of lines 553-555; every failure is a TypeError and dns is not
    used afterwards, so the order in which the items come does not show *)
Fixpoint collect_dns (items : list (string * pyobj)) (dns : list string)
  : result (list string) :=
  match items with
  | [] => Ok dns
  | (key, val) :: rest =>
      if PyStr.contains "dns" key || PyStr.contains "domain" key
      then dns' ← extend dns val; collect_dns rest dns'
      else collect_dns rest dns
  end.

(** settings[key] *)
Definition setting (settings : gmap string pyobj) (key : string) : result pyobj :=
  match settings !! key with
  | Some value => Ok value
  | None => Raise (KeyError key)
  end.

Section build.

Variable str_of_service : string → string.

Definition build_interface (iface iface_type : string) (enable : bool)
    (settings : gmap string pyobj) : M (option (list string)) :=
  if negb (String.eqb iface_type "eth")
  then raise (CommandExecutionError
                ("Interface type not supported: " +:+ iface_type +:+ ":"))
  else
    _ ← match settings !! "proto" with
        | None => _ ← set_dhcp_linklocal_all str_of_service iface; ret ()
        | Some proto =>
            if arg_is proto "dhcp"
            then _ ← set_dhcp_linklocal_all str_of_service iface; ret ()
            else if negb (arg_is proto "static")
            then raise (CommandExecutionError
                          ("Protocol type: " +:+ format_obj proto +:+ " is not supported"))
            else
              address ← read (λ _, setting settings "ipaddr");
              netmask ← read (λ _, setting settings "netmask");
              gateway ← read (λ _, setting settings "gateway");
              dns ← read (λ _, collect_dns (map_to_list settings) []);
              ret ()
        end;
    _ ← (if enable then _ ← up str_of_service iface; ret () else ret ());
    get_interface iface.

End build.

(** names of the host interfaces that get_interfaces_details reports *)
Definition reported_names (ifaces : list pyiface.Interface) : list string :=
  pyiface.name <$> List.filter (λ interface,
                     Z.eqb (Z.land (pyiface.flags interface) IFF_LOOPBACK) 0) ifaces.

(** every character of s is whitespace *)
Fixpoint blank (s : string) : bool :=
  match s with
  | EmptyString => true
  | String c s' => PyStr.is_space c && blank s'
  end.

(** from w to w1 the file is kept and at most one connect was issued *)
Definition at_most_connect (w w1 : world) : Prop :=
  config_file w1 = config_file w ∧
  (calls w1 = calls w ∨ ∃ path, calls w1 = (calls w ++ [Connect path])%list).

(** ** Notions used to state what the functions do *)


(** the interface a listed service is bound to (line 152) *)
Definition bound_to (d : services) (service : string) : result string :=
  ethernet ← pyconnman.get_property d (_add_path service) "Ethernet";
  subscript ethernet "Interface".

(** a computation that changes nothing but the log *)
Definition logs_only {A} (m : M A) : Prop :=
  ∀ w, ∃ msgs, (m w).2 = add_log w msgs.

(** interface.flags & IFF_LOOPBACK == 0 *)
Definition not_loopback (interface : pyiface.Interface) : bool :=
  Z.eqb (Z.land (pyiface.flags interface) IFF_LOOPBACK) 0.

(** lines 409-412 and 501-504: the dictionary sent as IPv4.Configuration *)
Definition dhcp_configuration (ipv4 : gmap string string) : gmap string string :=
  <["Gateway" := ""]> (<["Netmask" := ""]> (<["Address" := ""]> (<["Method" := "dhcp"]> ipv4))).

Definition manual_configuration (ipv4 : gmap string string)
    (address netmask gateway : string) : gmap string string :=
  <["Gateway" := gateway]>
    (<["Netmask" := netmask]> (<["Address" := address]> (<["Method" := "manual"]> ipv4))).

(** the world after the daemon has answered a call *)
Definition after_call (w : world) (c : call) : world :=
  {| daemon := (react w c (daemon w)).2; react := react w; host := host w;
     config_file := config_file w; calls := calls w ++ [c]; log := log w |}.

Definition answer_to (w : world) (c : call) : reply := (react w c (daemon w)).1.

Definition is_raise (answer : reply) : bool :=
  match answer with
  | ReplyRaise _ => true
  | _ => false
  end.

(** the list sent as Nameservers.Configuration (lines 491-492 and 508) *)
Definition servers_sent (nameservers : pyobj) : list string :=
  match nameservers with
  | OStr s => PyStr.split " " s
  | OList l => l
  | ONone => []
  end.

(** what connect or disconnect makes of the daemon's answer (lines 321-325) *)
Definition switched (answer : reply) (failure : string) : result bool :=
  match answer with
  | ReplyNone => Ok true
  | ReplyValue _ => Ok false
  | ReplyRaise _ => Raise (CommandExecutionError failure)
  end.

(** ** Further concrete inputs *)
Module Cases.

(** a VPN service, which has no Ethernet property, listed before eth0 *)
Definition vpn_path : string := "/net/connman/service/vpn_10_8_0_1".

Definition vpn_props : gmap string propval :=
  <["Type" := PStr "vpn"]> (<["State" := PStr "ready"]> ∅).

Definition vpn_first : services :=
  [(vpn_path, vpn_props); (Sample.eth0_path, Sample.eth0_props "online" "dhcp")].



End Cases.

(** * Properties *)

(** ** Stepping through the monad *)

Lemma add_log_nil w : add_log w [] = w.
Proof. destruct w. unfold add_log. cbn. by rewrite app_nil_r. Qed.

Lemma add_log_app w l1 l2 : add_log (add_log w l1) l2 = add_log w (l1 ++ l2).
Proof. unfold add_log. cbn. by rewrite <- app_assoc. Qed.

Lemma daemon_add_log w l : daemon (add_log w l) = daemon w.
Proof. reflexivity. Qed.

Lemma bind_read {A B} (f : world → result A) (k : A → M B) w :
  (read f ≫= k) w = match f w with Ok a => k a w | Raise e => (Raise e, w) end.
Proof. unfold mbind, M_bind, read. by destruct (f w). Qed.

Lemma setitem2_present data outer inner v block :
  data !! outer = Some (VDict block) →
  setitem2 data outer inner v = Ok (<[outer := VDict (<[inner := v]> block)]> data).
Proof. intros H. unfold setitem2. by rewrite H. Qed.

Lemma setitem2_absent data outer inner v :
  data !! outer = None → setitem2 data outer inner v = Raise (KeyError outer).
Proof. intros H. unfold setitem2. by rewrite H. Qed.

Lemma setitem2_fresh data outer inner v block :
  setitem2 (<[outer := VDict block]> data) outer inner v =
    Ok (<[outer := VDict (<[inner := v]> block)]> data).
Proof.
  rewrite (setitem2_present _ _ _ _ block) by apply lookup_insert_eq.
  by rewrite insert_insert_eq.
Qed.

Lemma ipv4_field_run service ipv4Info info data block w :
  data !! "ipv4" = Some (VDict block) →
  ipv4_field service ipv4Info info data w =
    (Ok (<["ipv4" := VDict (fill_ipv4 ipv4Info block info)]> data),
     add_log w (ipv4_warnings service ipv4Info [info])).
Proof.
  intros Hblock. unfold ipv4_field, fill_ipv4, ipv4_warnings. cbn.
  destruct (subscript ipv4Info info) as [value|e]; cbn.
  - rewrite (setitem2_present _ _ _ _ _ Hblock). unfold ret. by rewrite add_log_nil.
  - unfold mbind, M_bind, log_warning, ret. by rewrite insert_id.
Qed.

Lemma ipv4_loop_run service ipv4Info fields : ∀ data block w,
  data !! "ipv4" = Some (VDict block) →
  for_each fields (ipv4_field service ipv4Info) data w =
    (Ok (<["ipv4" := VDict (foldl (fill_ipv4 ipv4Info) block fields)]> data),
     add_log w (ipv4_warnings service ipv4Info fields)).
Proof.
  induction fields as [|info fields IH]; intros data block w Hblock.
  - cbn. unfold ret. rewrite insert_id by done. by rewrite add_log_nil.
  - cbn [for_each]. unfold mbind, M_bind.
    rewrite (ipv4_field_run _ _ _ _ _ _ Hblock).
    rewrite (IH _ (fill_ipv4 ipv4Info block info)) by apply lookup_insert_eq.
    rewrite insert_insert_eq, add_log_app. cbn [foldl]. f_equal. f_equal.
    unfold ipv4_warnings. cbn [omap list_omap]. simpl.
    by destruct (subscript ipv4Info info).
Qed.

Lemma ipv6_field_run service ipv6Info info data w :
  data !! "ipv6" = None →
  ipv6_field service ipv6Info info data w =
    (Ok data, add_log w [warn_ipv6 info service]).
Proof.
  intros Hnone. unfold ipv6_field.
  destruct (subscript ipv6Info info) as [value|e]; [|done].
  by rewrite (setitem2_absent _ _ _ _ Hnone).
Qed.

Lemma ipv6_loop_run service ipv6Info fields : ∀ data w,
  data !! "ipv6" = None →
  for_each fields (ipv6_field service ipv6Info) data w =
    (Ok data, add_log w ((λ info, warn_ipv6 info service) <$> fields)).
Proof.
  induction fields as [|info fields IH]; intros data w Hnone.
  - cbn. unfold ret. by rewrite add_log_nil.
  - cbn [for_each]. unfold mbind, M_bind.
    rewrite (ipv6_field_run _ _ _ _ _ Hnone), (IH _ _ Hnone), add_log_app.
    done.
Qed.

Lemma live_header_no_ipv4 service type interface address :
  live_header service type interface address !! "ipv4" = None.
Proof. reflexivity. Qed.

Lemma live_header_no_ipv6 service type interface address :
  live_header service type interface address !! "ipv6" = None.
Proof. reflexivity. Qed.

Lemma get_service_info_returns service w data w' :
  _get_service_info service w = (Ok data, w') → service_info w service data w'.
Proof.
  unfold _get_service_info. intros H.
  rewrite bind_read in H.
  destruct (pyconnman.get_property (daemon w) (_add_path service) "Type")
    as [type|] eqn:Htype; [|done].
  rewrite bind_read in H.
  destruct (pyconnman.get_property (daemon w) (_add_path service) "Ethernet")
    as [ethernet|] eqn:Hethernet; [|done].
  rewrite bind_read in H.
  destruct (subscript ethernet "Interface") as [interface|] eqn:Hinterface; [|done].
  rewrite bind_read, Hethernet, bind_read in H.
  destruct (subscript ethernet "Address") as [address|] eqn:Haddress; [|done].
  rewrite bind_read in H.
  destruct (pyconnman.get_property (daemon w) (_add_path service) "State")
    as [state|] eqn:Hstate; [|done].
  fold (live_header service type interface address) in H.
  fold (is_up state) in H.
  destruct (is_up state) eqn:Hup.
  - unfold mbind at 1, M_bind at 1 in H.
    rewrite bind_read in H.
    destruct (ipv4_properties (daemon w) (_add_path service))
      as [ipv4Info|] eqn:Hinfo; [|done].
    unfold mbind at 1, M_bind at 1 in H.
    rewrite (ipv4_loop_run _ _ _ _ (<["gateway" := VStr "0.0.0.0"]> ∅))
      in H by apply lookup_insert_eq.
    rewrite insert_insert_eq in H.
    rewrite bind_read, daemon_add_log in H.
    destruct (pyconnman.get_property (daemon w) (_add_path service) "IPv6")
      as [ipv6Info|] eqn:Hipv6; [|done].
    unfold mbind at 1, M_bind at 1 in H.
    rewrite ipv6_loop_run, add_log_app in H by done.
    rewrite bind_read, daemon_add_log in H.
    destruct (pyconnman.get_property (daemon w) (_add_path service) "Nameservers")
      as [nameservers|] eqn:Hns; [|done].
    unfold read at 1 in H.
    erewrite setitem2_present in H by apply lookup_insert_eq.
    rewrite insert_insert_eq in H.
    rewrite bool_decide_eq_true_2 in H by (rewrite lookup_insert_eq; eauto).
    unfold read in H.
    erewrite setitem2_present in H by apply lookup_insert_eq.
    rewrite insert_insert_eq in H.
    injection H as <- <-. by eapply service_info_up.
  - unfold mbind at 1, M_bind at 1, ret at 1 in H.
    rewrite bool_decide_eq_false_2 in H.
    + injection H as <- <-. by eapply service_info_down.
    + rewrite lookup_insert_ne by done. rewrite live_header_no_ipv4.
      by intros [? ?].
Qed.

Lemma get_service_info_total service w data w' :
  service_info w service data w' → _get_service_info service w = (Ok data, w').
Proof.
  unfold _get_service_info.
  intros [type ethernet interface address state Htype Hethernet Hinterface Haddress
            Hstate Hup
         |type ethernet interface address state ipv4Info ipv6Info nameservers
            Htype Hethernet Hinterface Haddress Hstate Hup Hinfo Hipv6 Hns].
  - rewrite bind_read, Htype, bind_read, Hethernet, bind_read, Hinterface.
    rewrite bind_read, Hethernet, bind_read, Haddress, bind_read, Hstate.
    fold (is_up state). rewrite Hup.
    unfold mbind at 1, M_bind at 1, ret at 1.
    fold (live_header service type interface address).
    rewrite bool_decide_eq_false_2; [done|].
    rewrite lookup_insert_ne by done. rewrite live_header_no_ipv4. by intros [? ?].
  - rewrite bind_read, Htype, bind_read, Hethernet, bind_read, Hinterface.
    rewrite bind_read, Hethernet, bind_read, Haddress, bind_read, Hstate.
    fold (is_up state). rewrite Hup.
    fold (live_header service type interface address).
    unfold mbind at 1, M_bind at 1.
    rewrite bind_read, Hinfo.
    unfold mbind at 1, M_bind at 1.
    rewrite (ipv4_loop_run _ _ _ _ (<["gateway" := VStr "0.0.0.0"]> ∅))
      by apply lookup_insert_eq.
    rewrite insert_insert_eq, bind_read, daemon_add_log, Hipv6.
    unfold mbind at 1, M_bind at 1.
    rewrite ipv6_loop_run, add_log_app by done.
    rewrite bind_read, daemon_add_log, Hns.
    unfold read at 1.
    erewrite setitem2_present by apply lookup_insert_eq.
    rewrite insert_insert_eq.
    rewrite bool_decide_eq_true_2 by (rewrite lookup_insert_eq; eauto).
    unfold read.
    erewrite setitem2_present by apply lookup_insert_eq.
    by rewrite insert_insert_eq.
Qed.

Lemma fill_method ipv4Info block :
  fill_ipv4 ipv4Info block "Method" =
    match subscript ipv4Info "Method" with
    | Ok value => <["requestmode" := VStr (requestmode_of value)]> block
    | Raise _ => block
    end.
Proof. unfold fill_ipv4. by destruct (subscript ipv4Info "Method"). Qed.

Lemma fill_address ipv4Info block :
  fill_ipv4 ipv4Info block "Address" =
    match subscript ipv4Info "Address" with
    | Ok value => <["address" := VStr value]> block
    | Raise _ => block
    end.
Proof. unfold fill_ipv4. by destruct (subscript ipv4Info "Address"). Qed.

Lemma fill_netmask ipv4Info block :
  fill_ipv4 ipv4Info block "Netmask" =
    match subscript ipv4Info "Netmask" with
    | Ok value => <["netmask" := VStr value]> block
    | Raise _ => block
    end.
Proof. unfold fill_ipv4. by destruct (subscript ipv4Info "Netmask"). Qed.

Lemma fill_gateway ipv4Info block :
  fill_ipv4 ipv4Info block "Gateway" =
    match subscript ipv4Info "Gateway" with
    | Ok value => <["gateway" := VStr value]> block
    | Raise _ => block
    end.
Proof. unfold fill_ipv4. by destruct (subscript ipv4Info "Gateway"). Qed.

(** the ipv4 block of a ready or online service, field by field *)
Lemma live_up_block service type interface address ipv4Info nameservers :
  ∃ block,
    live_up service type interface address ipv4Info nameservers !! "ipv4"
      = Some (VDict block) ∧
    block !! "requestmode" =
      match subscript ipv4Info "Method" with
      | Ok value => Some (VStr (requestmode_of value))
      | Raise _ => None
      end ∧
    block !! "gateway" =
      match subscript ipv4Info "Gateway" with
      | Ok value => Some (VStr value)
      | Raise _ => Some (VStr "0.0.0.0")
      end ∧
    block !! "dns" = Some (VList (iterate nameservers)) ∧
    block !! "supportedrequestmodes" = Some supportedrequestmodes.
Proof.
  unfold live_up. eexists. split; [apply lookup_insert_eq|].
  unfold ipv4_fields. cbn [foldl].
  rewrite fill_method, fill_address, fill_netmask, fill_gateway.
  destruct (subscript ipv4Info "Method"), (subscript ipv4Info "Address"),
    (subscript ipv4Info "Netmask"), (subscript ipv4Info "Gateway");
    by simplify_map_eq.
Qed.

Lemma live_up_keys service type interface address ipv4Info nameservers :
  live_up service type interface address ipv4Info nameservers !! "up"
    = Some (VBool true) ∧
  live_up service type interface address ipv4Info nameservers !! "ipv6" = None.
Proof. unfold live_up. by simplify_map_eq. Qed.

Lemma static_default_ipv4 interface :
  static_default interface !! "ipv4" = Some (VDict static_block).
Proof. unfold static_default. by simplify_map_eq. Qed.

Lemma bind_ok {A B} (a : A) (k : A → result B) : (Ok a ≫= k) = k a.
Proof. reflexivity. Qed.

Lemma bind_raise {A B} (e : exn) (k : A → result B) : (Raise e ≫= k) = Raise e.
Proof. reflexivity. Qed.

Lemma get_static_info_returns interface w data :
  _get_static_info interface w = Ok data → static_info w interface data.
Proof.
  unfold _get_static_info. intros H.
  destruct (read_config (config_file w)) as [parser|] eqn:Hparser; [|done].
  rewrite bind_ok in H.
  fold static_block in H. fold (static_default interface) in H.
  unfold configparser.has_section in H.
  set (section := section_of (PyStr.drop_last (pyiface.hwaddr interface))) in *.
  destruct (parser !! section) as [fields|] eqn:Hsection.
  - rewrite bool_decide_eq_true_2 in H by eauto.
    unfold configparser.get in H. rewrite Hsection in H.
    change (configparser.optionxform "IPv4") with "ipv4" in H.
    change (configparser.optionxform "Nameservers") with "nameservers" in H.
    destruct (fields !! "ipv4") as [compound|] eqn:Hcompound; [|done].
    rewrite bind_ok in H.
    destruct (fields !! "nameservers") as [csv|] eqn:Hcsv;
      destruct (PyStr.split "/" compound)
        as [|address [|netmask [|gateway rest]]] eqn:Hsplit;
      cbn [lookup list_lookup] in H;
      repeat first
        [ rewrite bind_ok in H
        | rewrite bind_raise in H
        | rewrite setitem2_fresh in H
        | rewrite (setitem2_present _ _ _ _ _ (static_default_ipv4 interface)) in H ];
      try done.
    injection H as <-. by eapply static_info_found.
  - rewrite bool_decide_eq_false_2 in H by (by intros [? ?]).
    injection H as <-. by eapply static_info_default.
Qed.

Lemma get_static_info_total interface w data :
  static_info w interface data → _get_static_info interface w = Ok data.
Proof.
  unfold _get_static_info.
  intros [parser Hparser Hsection
         |parser fields compound csv address netmask gateway rest
            Hparser Hsection Hcompound Hcsv Hsplit].
  - rewrite Hparser, bind_ok. unfold configparser.has_section.
    rewrite Hsection. by rewrite bool_decide_eq_false_2 by (by intros [? ?]).
  - rewrite Hparser, bind_ok.
    unfold configparser.has_section. rewrite Hsection.
    rewrite bool_decide_eq_true_2 by eauto.
    unfold configparser.get. rewrite Hsection.
    change (configparser.optionxform "IPv4") with "ipv4".
    change (configparser.optionxform "Nameservers") with "nameservers".
    rewrite Hcompound, bind_ok, Hcsv, Hsplit. cbn [lookup list_lookup].
    fold static_block. fold (static_default interface).
    rewrite bind_ok.
    rewrite (setitem2_present _ _ _ _ _ (static_default_ipv4 interface)).
    rewrite bind_ok, bind_ok, setitem2_fresh, bind_ok, bind_ok, setitem2_fresh.
    rewrite bind_ok, bind_ok. by rewrite setitem2_fresh.
Qed.

Lemma static_info_shape w interface data :
  static_info w interface data →
  data !! "up" = Some (VBool false) ∧
  ∃ block, data !! "ipv4" = Some (VDict block) ∧
           block !! "requestmode" = Some (VStr "static") ∧
           block !! "supportedrequestmodes" = Some supportedrequestmodes.
Proof.
  intros [|]; unfold static_found, static_default, static_block;
    (split; [by simplify_map_eq|]); eexists; (split; [by simplify_map_eq|]);
    by simplify_map_eq.
Qed.

(** ** Live and static normalization *)

Lemma ipv6_never_in_result service w data w' :
  _get_service_info service w = (Ok data, w') → data !! "ipv6" = None.
Proof.
  intros H. apply get_service_info_returns in H. destruct H.
  - rewrite lookup_insert_ne by done. apply live_header_no_ipv6.
  - apply live_up_keys.
Qed.

Lemma ipv6_always_warns service w data w' state :
  _get_service_info service w = (Ok data, w') →
  pyconnman.get_property (daemon w) (_add_path service) "State" = Ok state →
  is_up state = true →
  ∃ before : list string,
    log w' = (log w ++ before ++ [warn_ipv6 "Address" service;
                                  warn_ipv6 "Prefix" service;
                                  warn_ipv6 "Gateway" service])%list.
Proof.
  intros H Hstate Hup. apply get_service_info_returns in H.
  destruct H as [? ? ? ? state' ? ? ? ? Hstate' Hdown|]; [congruence|].
  eexists. reflexivity.
Qed.

(** C3, as amended: live normalization returns an ipv4 block exactly when
    it reports up=True (a service that is not ready or online gets up=False
    and no ipv4 block), while static normalization always reports up=False
    together with an ipv4 block that holds requestmode 'static' and the
    supported request modes. *)
Theorem ipv4_block_and_up service interface w :
  (∀ data w', _get_service_info service w = (Ok data, w') →
     (data !! "up" = Some (VBool true) ∧ is_Some (data !! "ipv4")) ∨
     (data !! "up" = Some (VBool false) ∧ data !! "ipv4" = None)) ∧
  (∀ data, _get_static_info interface w = Ok data →
     data !! "up" = Some (VBool false) ∧
     ∃ block, data !! "ipv4" = Some (VDict block) ∧
              block !! "requestmode" = Some (VStr "static") ∧
              block !! "supportedrequestmodes" = Some supportedrequestmodes).
Proof.
  split.
  - intros data w' H. apply get_service_info_returns in H. destruct H.
    + right. split; [apply lookup_insert_eq|].
      rewrite lookup_insert_ne by done. apply live_header_no_ipv4.
    + left. split; [apply live_up_keys|].
      unfold live_up. rewrite lookup_insert_eq. eauto.
  - intros data H. apply get_static_info_returns in H.
    by eapply static_info_shape.
Qed.

(** C4, as amended: for a ready or online service, with Method the value
    found in the property set that is read (IPv4, or IPv4.Configuration when
    the Method of IPv4 is 'manual'), the result's requestmode is
    'dhcp_linklocal' for 'dhcp' and 'static' for 'manual' or 'fixed'; any
    other Method is surfaced unchanged. *)
Theorem requestmode_translation service w data w' state ipv4Info method :
  _get_service_info service w = (Ok data, w') →
  pyconnman.get_property (daemon w) (_add_path service) "State" = Ok state →
  is_up state = true →
  ipv4_properties (daemon w) (_add_path service) = Ok ipv4Info →
  subscript ipv4Info "Method" = Ok method →
  ∃ block requestmode,
    data !! "ipv4" = Some (VDict block) ∧
    block !! "requestmode" = Some (VStr requestmode) ∧
    (method = "dhcp" → requestmode = "dhcp_linklocal") ∧
    (method = "manual" ∨ method = "fixed" → requestmode = "static") ∧
    (method ≠ "dhcp" → method ≠ "manual" → method ≠ "fixed" → requestmode = method).
Proof.
  intros H Hstate Hup Hinfo Hmethod. apply get_service_info_returns in H.
  destruct H as [|type ethernet interface address state' ipv4Info' ipv6Info nameservers
                   ? ? ? ? ? ? Hinfo' ? ?]; [congruence|].
  assert (ipv4Info' = ipv4Info) as -> by congruence.
  destruct (live_up_block service type interface address ipv4Info nameservers)
    as (block & Hblock & Hmode & _).
  rewrite Hmethod in Hmode.
  exists block, (requestmode_of method). repeat split; try done.
  - by intros ->.
  - by intros [-> | ->].
  - intros Hdhcp Hmanual Hfixed. unfold requestmode_of.
    apply String.eqb_neq in Hdhcp, Hmanual, Hfixed.
    by rewrite Hdhcp, Hmanual, Hfixed.
Qed.

(** C10: for every ready or online service, the ipv4 block of the returned
    record has a gateway key; it holds the Gateway of the IPv4 properties
    that were read, and '0.0.0.0' when that field cannot be read. *)
Theorem gateway_key_always_present service w data w' state :
  _get_service_info service w = (Ok data, w') →
  pyconnman.get_property (daemon w) (_add_path service) "State" = Ok state →
  is_up state = true →
  ∃ block ipv4Info,
    data !! "ipv4" = Some (VDict block) ∧
    ipv4_properties (daemon w) (_add_path service) = Ok ipv4Info ∧
    block !! "gateway" =
      Some (VStr match subscript ipv4Info "Gateway" with
                 | Ok gateway => gateway
                 | Raise _ => "0.0.0.0"
                 end).
Proof.
  intros H Hstate Hup. apply get_service_info_returns in H.
  destruct H as [|type ethernet interface address state' ipv4Info ipv6Info nameservers
                   ? ? ? ? ? ? Hinfo ? ?]; [congruence|].
  destruct (live_up_block service type interface address ipv4Info nameservers)
    as (block & Hblock & _ & Hgateway & _).
  exists block, ipv4Info. repeat split; try done.
  rewrite Hgateway. by destruct (subscript ipv4Info "Gateway").
Qed.

(** ** The validators *)

Lemma space_delimited_list_sequence py l :
  _space_delimited_list py (OList l) = (true, "space-delimited string").
Proof. reflexivity. Qed.

(** On Python 2 a str has no __iter__ and is split on whitespace. *)
Lemma space_delimited_list_py2 s :
  (_space_delimited_list Py2 (OStr s)).1 = negb (bool_decide (PyStr.split_ws s = [])).
Proof.
  unfold _space_delimited_list. cbn.
  by destruct (PyStr.split_ws s).
Qed.

(** On Python 3 a str has __iter__, so no str is ever split. *)
Lemma space_delimited_list_py3 s :
  _space_delimited_list Py3 (OStr s) = (true, "space-delimited string").
Proof. reflexivity. Qed.

(** C8, at the input where the code departs from it: on Python 3 a str of
    blanks has no whitespace-delimited token, yet it is reported valid,
    because hasattr(value, '__iter__') holds for every str and the split is
    never reached. *)
Theorem space_delimited_list_accepts_blanks :
  PyStr.split_ws "   " = [] ∧
  _space_delimited_list Py3 (OStr "   ") = (true, "space-delimited string").
Proof. split; reflexivity. Qed.


Lemma validate_ipv4_accepts ipv4_addr netmask address mask gateway :
  ipv4_addr (PyStr.strip address) = true →
  netmask (PyStr.strip mask) = true →
  ipv4_addr (PyStr.strip gateway) = true →
  _validate_ipv4 ipv4_addr netmask [address; mask; gateway] = (true, "").
Proof. intros Ha Hm Hg. unfold _validate_ipv4. by rewrite Ha, Hm, Hg. Qed.


(** ** up, down and set_static_all *)

Lemma not_service_some service : service ≠ "" → not_service (Some service) = false.
Proof. intros H. by apply String.eqb_neq. Qed.

(** C7: when the interface resolves to a service that is online or ready,
    up returns True and leaves the world as it was (no call reaches the
    daemon), while down issues exactly one disconnect for that service and
    returns True exactly when the daemon answers None. *)
Theorem up_down_when_connected str_of_service w interface service :
  _interface_to_service (daemon w) interface = Ok (Some service) →
  service ≠ "" →
  _connected (daemon w) service = Ok true →
  up str_of_service interface w = (Ok true, w) ∧
  calls (down str_of_service interface w).2
    = (calls w ++ [Disconnect (_add_path service)])%list ∧
  ((down str_of_service interface w).1 = Ok true ↔
   (react w (Disconnect (_add_path service)) (daemon w)).1 = ReplyNone).
Proof.
  intros Hservice Hname Hconnected. split; [|split].
  - unfold up. rewrite bind_read, Hservice, (not_service_some _ Hname).
    change (default "" (Some service)) with service.
    by rewrite bind_read, Hconnected.
  - unfold down. rewrite bind_read, Hservice, (not_service_some _ Hname).
    change (default "" (Some service)) with service.
    rewrite bind_read, Hconnected. unfold mbind, M_bind, issue.
    by destruct (react w (Disconnect (_add_path service)) (daemon w)) as [[] ?].
  - unfold down. rewrite bind_read, Hservice, (not_service_some _ Hname).
    change (default "" (Some service)) with service.
    rewrite bind_read, Hconnected. unfold mbind, M_bind, issue.
    by destruct (react w (Disconnect (_add_path service)) (daemon w)) as [[] ?].
Qed.

(** Without a live service the first test of set_static_all raises, whatever
    the host interfaces are: lines 493-498 are never reached. *)
Lemma set_static_all_needs_service py ipv4_addr netmask str_of_service
    w interface address mask gateway nameservers service :
  _interface_to_service (daemon w) interface = Ok service →
  not_service service = true →
  set_static_all py ipv4_addr netmask str_of_service
      interface address mask gateway nameservers w
    = (Raise (invalid_interface_name interface), w).
Proof.
  intros Hservice Hnot. unfold set_static_all.
  by rewrite bind_read, Hservice, Hnot.
Qed.

(** C1, at the input where the code departs from it: eth1 is a host
    interface without live service and the arguments are valid, yet
    set_static_all raises 'Invalid interface name: eth1' and writes
    nothing. *)
Theorem set_static_all_skips_fallback :
  let w := Sample.box "online" "dhcp" None in
  in_getIfaces (host w) "eth1" = true ∧
  _interface_to_service (daemon w) "eth1" = Ok None ∧
  _validate_ipv4 Sample.dotted_quad Sample.dotted_quad
    ["10.0.0.5"; "255.255.255.0"; "10.0.0.1"] = (true, "") ∧
  set_static_all Py3 Sample.dotted_quad Sample.dotted_quad Sample.service_text
      "eth1" "10.0.0.5" "255.255.255.0" "10.0.0.1" (OList []) w
    = (Raise (CommandExecutionError "Invalid interface name: eth1"), w).
Proof. repeat split; reflexivity. Qed.


(** ** The Static Store *)

Lemma set_fresh parser section option value fields :
  configparser.set (<[section := fields]> parser) section option value =
    Ok (<[section := <[configparser.optionxform option := value]> fields]> parser).
Proof.
  unfold configparser.set. rewrite lookup_insert_eq. by rewrite insert_insert_eq.
Qed.

Lemma configure_static_interface_run interface settings w parser full :
  read_config (config_file w) = Ok parser →
  hwaddr_of (host w) interface = Ok full →
  _configure_static_interface interface settings w =
    (Ok true, with_file w (upsert parser (PyStr.drop_last full) settings)).
Proof.
  intros Hparser Hfull. unfold _configure_static_interface.
  rewrite bind_read, Hparser, bind_read, Hfull.
  set (hwaddr := PyStr.drop_last full).
  assert (∃ fields,
    (if negb (configparser.has_section parser (section_of hwaddr))
     then configparser.add_section parser (section_of hwaddr) else parser)
      = <[section_of hwaddr := fields]> parser ∧
    fields = default ∅ (parser !! section_of hwaddr)) as (fields & -> & Hfields).
  { unfold configparser.has_section, configparser.add_section.
    destruct (parser !! section_of hwaddr) as [fields|] eqn:Hsection.
    - rewrite bool_decide_eq_true_2 by eauto. exists fields.
      split; [|done]. cbn. by rewrite insert_id.
    - rewrite bool_decide_eq_false_2 by (by intros [? ?]). by exists ∅. }
  rewrite bind_read, set_fresh, bind_read, set_fresh, bind_read, set_fresh.
  rewrite bind_read, set_fresh, bind_read, set_fresh.
  unfold upsert, upsert_fields. by rewrite <- Hfields.
Qed.



(** C6: for every interface on the host and every readable file, the upsert
    of 10.0.0.5, 255.255.255.0, 10.0.0.1 and '8.8.8.8,8.8.4.4' succeeds, and
    reading the section of that interface back splits the stored compound
    field and the stored comma-joined nameservers into the same values. *)
Theorem static_round_trip w interface parser :
  read_config (config_file w) = Ok parser →
  hwaddr_of (host w) (pyiface.name interface) = Ok (pyiface.hwaddr interface) →
  ∃ w' data block,
    _configure_static_interface (pyiface.name interface)
        (static_settings "10.0.0.5" "255.255.255.0" "10.0.0.1" "8.8.8.8,8.8.4.4") w
      = (Ok true, w') ∧
    _get_static_info interface w' = Ok data ∧
    data !! "ipv4" = Some (VDict block) ∧
    block !! "address" = Some (VStr "10.0.0.5") ∧
    block !! "netmask" = Some (VStr "255.255.255.0") ∧
    block !! "gateway" = Some (VStr "10.0.0.1") ∧
    block !! "dns" = Some (VList ["8.8.8.8"; "8.8.4.4"]).
Proof.
  intros Hparser Hfull.
  set (settings := static_settings "10.0.0.5" "255.255.255.0" "10.0.0.1" "8.8.8.8,8.8.4.4").
  exists (with_file w (upsert parser (PyStr.drop_last (pyiface.hwaddr interface)) settings)),
         (static_found interface "10.0.0.5" "255.255.255.0" "10.0.0.1"
                       (PyStr.split "," "8.8.8.8,8.8.4.4")).
  eexists. split; [by apply configure_static_interface_run|].
  split.
  - apply get_static_info_total.
    eapply (static_info_found _ _ _ _
              "10.0.0.5/255.255.255.0/10.0.0.1" "8.8.8.8,8.8.4.4"
              "10.0.0.5" "255.255.255.0" "10.0.0.1" []).
    + reflexivity.
    + unfold upsert. apply lookup_insert_eq.
    + unfold upsert_fields, static_settings. by simplify_map_eq.
    + unfold upsert_fields, static_settings. by simplify_map_eq.
    + reflexivity.
  - unfold static_found. rewrite lookup_insert_eq.
    split; [reflexivity|]. by simplify_map_eq.
Qed.

(** ** The module on the sample host *)

Lemma eth0_online_dhcp :
  _get_service_info Sample.eth0_service (Sample.box "online" "dhcp" None)
    = (Ok (Sample.eth0_info "dhcp"),
       add_log (Sample.box "online" "dhcp" None) Sample.eth0_warnings).
Proof.
  apply get_service_info_total.
  eapply (service_info_up _ _ (PStr "ethernet") Sample.eth0_ethernet
            "eth0" "00:80:AA:BB:CC:DD" (PStr "online")
            (Sample.eth0_ipv4 "dhcp") Sample.eth0_ipv6 (PList ["192.168.1.1"]));
    reflexivity.
Defined.

Lemma eth0_online_off :
  _get_service_info Sample.eth0_service (Sample.box "online" "off" None)
    = (Ok (Sample.eth0_info "off"),
       add_log (Sample.box "online" "off" None) Sample.eth0_warnings).
Proof.
  apply get_service_info_total.
  eapply (service_info_up _ _ (PStr "ethernet") Sample.eth0_ethernet
            "eth0" "00:80:AA:BB:CC:DD" (PStr "online")
            (Sample.eth0_ipv4 "off") Sample.eth0_ipv6 (PList ["192.168.1.1"]));
    reflexivity.
Qed.

Lemma eth1_static_default :
  _get_static_info Sample.eth1 (Sample.box "online" "dhcp" None)
    = Ok (static_default Sample.eth1).
Proof.
  apply get_static_info_total. by eapply (static_info_default _ _ ∅).
Defined.

(** C3 fails as stated: eth1 has no live service and no section in the
    file, and static normalization returns up=False together with an ipv4
    block. *)
Lemma static_info_down_with_ipv4 :
  _get_static_info Sample.eth1 (Sample.box "online" "dhcp" None)
    = Ok (static_default Sample.eth1) ∧
  static_default Sample.eth1 !! "up" = Some (VBool false) ∧
  static_default Sample.eth1 !! "ipv4" = Some (VDict static_block).
Proof. split; [apply eth1_static_default|]. split; reflexivity. Qed.

Lemma ipv4_block_and_up_witness :
  ((Sample.eth0_info "dhcp" !! "up" = Some (VBool true) ∧
    is_Some (Sample.eth0_info "dhcp" !! "ipv4")) ∨
   (Sample.eth0_info "dhcp" !! "up" = Some (VBool false) ∧
    Sample.eth0_info "dhcp" !! "ipv4" = None)) ∧
  (static_default Sample.eth1 !! "up" = Some (VBool false) ∧
   ∃ block, static_default Sample.eth1 !! "ipv4" = Some (VDict block) ∧
            block !! "requestmode" = Some (VStr "static") ∧
            block !! "supportedrequestmodes" = Some supportedrequestmodes).
Proof.
  destruct (ipv4_block_and_up Sample.eth0_service Sample.eth1
              (Sample.box "online" "dhcp" None)) as [Hlive Hstatic].
  split.
  - exact (Hlive _ _ eth0_online_dhcp).
  - exact (Hstatic _ eth1_static_default).
Defined.

(** C4 fails as stated: eth0 is online with IPv4 Method 'off', and the
    requestmode of the result is 'off', neither of the two enum values. *)
Lemma requestmode_off_passes_through :
  _get_service_info Sample.eth0_service (Sample.box "online" "off" None)
    = (Ok (Sample.eth0_info "off"),
       add_log (Sample.box "online" "off" None) Sample.eth0_warnings) ∧
  ∃ block, Sample.eth0_info "off" !! "ipv4" = Some (VDict block) ∧
           block !! "requestmode" = Some (VStr "off").
Proof.
  split; [apply eth0_online_off|].
  destruct (live_up_block Sample.eth0_service (PStr "ethernet") "eth0"
              "00:80:AA:BB:CC:DD" (Sample.eth0_ipv4 "off") (PList ["192.168.1.1"]))
    as (block & Hblock & Hmode & _).
  by exists block.
Qed.

Lemma requestmode_translation_witness :
  ∃ block requestmode,
    Sample.eth0_info "dhcp" !! "ipv4" = Some (VDict block) ∧
    block !! "requestmode" = Some (VStr requestmode) ∧
    ("dhcp" = "dhcp" → requestmode = "dhcp_linklocal") ∧
    ("dhcp" = "manual" ∨ "dhcp" = "fixed" → requestmode = "static") ∧
    ("dhcp" ≠ "dhcp" → "dhcp" ≠ "manual" → "dhcp" ≠ "fixed" → requestmode = "dhcp").
Proof.
  apply (requestmode_translation Sample.eth0_service
           (Sample.box "online" "dhcp" None) _ _ (PStr "online")
           (Sample.eth0_ipv4 "dhcp") "dhcp" eth0_online_dhcp);
    reflexivity.
Defined.

(** C9, at the input where the code departs from it: eth0 is online and its
    IPv6 properties hold an Address and a Prefix; the record returned has no
    ipv6 key, and a warning is logged for each of Address, Prefix and
    Gateway, because data['ipv6'] raises KeyError inside the try block. *)
Theorem ipv6_values_are_dropped :
  subscript Sample.eth0_ipv6 "Address" = Ok "fe80::1" ∧
  subscript Sample.eth0_ipv6 "Prefix" = Ok "64" ∧
  _get_service_info Sample.eth0_service (Sample.box "online" "dhcp" None)
    = (Ok (Sample.eth0_info "dhcp"),
       add_log (Sample.box "online" "dhcp" None) Sample.eth0_warnings) ∧
  Sample.eth0_info "dhcp" !! "ipv6" = None ∧
  Sample.eth0_warnings =
    ["Unable to get IPv4 Gateway for service ethernet_0080aabbccdd_cable" +:+ nl;
     "Unable to get IPv6 Address for service ethernet_0080aabbccdd_cable" +:+ nl;
     "Unable to get IPv6 Prefix for service ethernet_0080aabbccdd_cable" +:+ nl;
     "Unable to get IPv6 Gateway for service ethernet_0080aabbccdd_cable" +:+ nl].
Proof.
  split; [reflexivity|]. split; [reflexivity|].
  split; [apply eth0_online_dhcp|]. split; [|reflexivity].
  exact (proj2 (live_up_keys _ _ _ _ _ _)).
Qed.

Lemma gateway_key_always_present_witness :
  ∃ block ipv4Info,
    Sample.eth0_info "dhcp" !! "ipv4" = Some (VDict block) ∧
    ipv4_properties (daemon (Sample.box "online" "dhcp" None))
                    (_add_path Sample.eth0_service) = Ok ipv4Info ∧
    block !! "gateway" =
      Some (VStr match subscript ipv4Info "Gateway" with
                 | Ok gateway => gateway
                 | Raise _ => "0.0.0.0"
                 end).
Proof.
  apply (gateway_key_always_present Sample.eth0_service
           (Sample.box "online" "dhcp" None) _ _ (PStr "online") eth0_online_dhcp);
    reflexivity.
Defined.



Lemma up_down_when_connected_witness :
  up Sample.service_text "eth0" (Sample.box "online" "dhcp" None)
    = (Ok true, Sample.box "online" "dhcp" None) ∧
  calls (down Sample.service_text "eth0" (Sample.box "online" "dhcp" None)).2
    = ([] ++ [Disconnect (_add_path Sample.eth0_service)])%list ∧
  ((down Sample.service_text "eth0" (Sample.box "online" "dhcp" None)).1 = Ok true ↔
   (Sample.quiet (Disconnect (_add_path Sample.eth0_service))
      (daemon (Sample.box "online" "dhcp" None))).1 = ReplyNone).
Proof.
  apply (up_down_when_connected Sample.service_text
           (Sample.box "online" "dhcp" None) "eth0" Sample.eth0_service).
  - reflexivity.
  - discriminate.
  - reflexivity.
Defined.


Lemma static_round_trip_witness :
  ∃ w' data block,
    _configure_static_interface "eth1"
        (static_settings "10.0.0.5" "255.255.255.0" "10.0.0.1" "8.8.8.8,8.8.4.4")
        (Sample.box "online" "dhcp" (Some Sample.one_section))
      = (Ok true, w') ∧
    _get_static_info Sample.eth1 w' = Ok data ∧
    data !! "ipv4" = Some (VDict block) ∧
    block !! "address" = Some (VStr "10.0.0.5") ∧
    block !! "netmask" = Some (VStr "255.255.255.0") ∧
    block !! "gateway" = Some (VStr "10.0.0.1") ∧
    block !! "dns" = Some (VList ["8.8.8.8"; "8.8.4.4"]).
Proof.
  apply (static_round_trip (Sample.box "online" "dhcp" (Some Sample.one_section))
           Sample.eth1 (<["interface_001122334455" := Sample.other_section]> ∅)).
  - reflexivity.
  - reflexivity.
Defined.

(** ** The Service Directory *)

Lemma drop_first_append prefix s :
  PyStr.drop_first (String.length prefix) (prefix +:+ s) = s.
Proof. induction prefix as [|c prefix IH]; [done|]. cbn. apply IH. Qed.

(** X1: for services listed under SERVICE_PATH, stripping the prefix and
    adding it again gives back the object paths, in the listed order. *)
Theorem add_path_get_services (d : services) :
  Forall (λ entry, ∃ service, entry.1 = SERVICE_PATH +:+ service) d →
  _add_path <$> _get_services d = d.*1.
Proof.
  unfold _get_services, pyconnman.get_services.
  induction 1 as [|[path props] d [service Hpath] _ IH]; [done|].
  rewrite !fmap_cons, IH. f_equal. cbn [fst] in *. subst path.
  unfold _add_path. by rewrite drop_first_append.
Qed.

Lemma add_path_get_services_witness :
  _add_path <$> _get_services (daemon (Sample.box "online" "dhcp" None))
    = (daemon (Sample.box "online" "dhcp" None)).*1.
Proof.
  apply add_path_get_services.
  constructor; [by exists Sample.eth0_service|constructor].
Defined.

Lemma first_bound_step d candidate candidates iface :
  first_bound d (candidate :: candidates) iface =
    match bound_to d candidate with
    | Ok bound =>
        if String.eqb bound iface then Ok (Some candidate)
        else first_bound d candidates iface
    | Raise e => Raise e
    end.
Proof.
  unfold bound_to. cbn [first_bound].
  destruct (pyconnman.get_property d (_add_path candidate) "Ethernet")
    as [ethernet|]; [|done].
  rewrite !bind_ok. by destruct (subscript ethernet "Interface").
Qed.

Lemma first_bound_found d candidates iface service :
  first_bound d candidates iface = Ok (Some service) →
  ∃ before after,
    candidates = (before ++ service :: after)%list ∧
    bound_to d service = Ok iface ∧
    Forall (λ other, ∃ elsewhere, bound_to d other = Ok elsewhere ∧ elsewhere ≠ iface)
           before.
Proof.
  induction candidates as [|candidate candidates IH]; [done|].
  rewrite first_bound_step. intros H.
  destruct (bound_to d candidate) as [bound|] eqn:Hcandidate; [|done].
  destruct (String.eqb bound iface) eqn:Heq.
  - apply String.eqb_eq in Heq. injection H as ->. subst bound.
    by exists [], candidates.
  - apply String.eqb_neq in Heq.
    destruct (IH H) as (before & after & -> & Hservice & Hbefore).
    exists (candidate :: before), after. split; [done|]. split; [done|].
    constructor; [|done]. by exists bound.
Qed.

Lemma first_bound_none d candidates iface :
  first_bound d candidates iface = Ok None →
  Forall (λ other, ∃ elsewhere, bound_to d other = Ok elsewhere ∧ elsewhere ≠ iface)
         candidates.
Proof.
  induction candidates as [|candidate candidates IH]; [by constructor|].
  rewrite first_bound_step. intros H.
  destruct (bound_to d candidate) as [bound|] eqn:Hcandidate; [|done].
  destruct (String.eqb bound iface) eqn:Heq; [done|].
  apply String.eqb_neq in Heq. constructor; [|by apply IH].
  by exists bound.
Qed.

Lemma first_bound_raises d candidates iface e :
  first_bound d candidates iface = Raise e →
  ∃ before unreadable after,
    candidates = (before ++ unreadable :: after)%list ∧
    bound_to d unreadable = Raise e ∧
    Forall (λ other, ∃ elsewhere, bound_to d other = Ok elsewhere ∧ elsewhere ≠ iface)
           before.
Proof.
  induction candidates as [|candidate candidates IH]; [done|].
  rewrite first_bound_step. intros H.
  destruct (bound_to d candidate) as [bound|e'] eqn:Hcandidate.
  - destruct (String.eqb bound iface) eqn:Heq; [done|].
    apply String.eqb_neq in Heq.
    destruct (IH H) as (before & unreadable & after & -> & Hraise & Hbefore).
    exists (candidate :: before), unreadable, after.
    split; [done|]. split; [done|]. constructor; [|done]. by exists bound.
  - injection H as ->. exists [], candidate, candidates.
    split; [done|]. split; [done|]. constructor.
Qed.

(** X2: the service returned for an interface is the first listed one whose
    Ethernet.Interface is that name: it is bound to the interface, and every
    service listed before it is bound to another one. *)
Theorem interface_to_service_first_match d iface service :
  _interface_to_service d iface = Ok (Some service) →
  ∃ before after,
    _get_services d = (before ++ service :: after)%list ∧
    bound_to d service = Ok iface ∧
    Forall (λ other, ∃ elsewhere, bound_to d other = Ok elsewhere ∧ elsewhere ≠ iface)
           before.
Proof.
  unfold _interface_to_service. intros Hfirst.
  destruct (first_bound_found _ _ _ _ Hfirst) as (before & after & Hlist & Hbound & Hbefore).
  by exists before, after.
Qed.

Lemma interface_to_service_first_match_witness :
  ∃ before after,
    _get_services (daemon (Sample.box "online" "dhcp" None))
      = (before ++ Sample.eth0_service :: after)%list ∧
    bound_to (daemon (Sample.box "online" "dhcp" None)) Sample.eth0_service = Ok "eth0" ∧
    Forall (λ other, ∃ elsewhere,
              bound_to (daemon (Sample.box "online" "dhcp" None)) other = Ok elsewhere ∧
              elsewhere ≠ "eth0") before.
Proof.
  apply (interface_to_service_first_match
           (daemon (Sample.box "online" "dhcp" None)) "eth0" Sample.eth0_service).
  reflexivity.
Defined.

(** X3: when no service is returned and nothing is raised, every listed
    service has a readable Ethernet.Interface and none of them is the
    interface asked for. *)
Theorem interface_to_service_none d iface :
  _interface_to_service d iface = Ok None →
  Forall (λ other, ∃ elsewhere, bound_to d other = Ok elsewhere ∧ elsewhere ≠ iface)
         (_get_services d).
Proof.
  unfold _interface_to_service. intros Hfirst.
  by apply first_bound_none.
Qed.

Lemma interface_to_service_none_witness :
  Forall (λ other, ∃ elsewhere,
            bound_to (daemon (Sample.box "online" "dhcp" None)) other = Ok elsewhere ∧
            elsewhere ≠ "eth1")
         (_get_services (daemon (Sample.box "online" "dhcp" None))).
Proof.
  apply (interface_to_service_none (daemon (Sample.box "online" "dhcp" None)) "eth1").
  reflexivity.
Defined.

(** X4: resolution raises exactly when it meets a listed service whose
    Ethernet.Interface cannot be read before any service bound to the
    interface: the exception is the one of that read, and a service bound to
    the interface further down the list is not looked at. *)
Theorem interface_to_service_raises d iface e :
  _interface_to_service d iface = Raise e →
  ∃ before unreadable after,
    _get_services d = (before ++ unreadable :: after)%list ∧
    bound_to d unreadable = Raise e ∧
    Forall (λ other, ∃ elsewhere, bound_to d other = Ok elsewhere ∧ elsewhere ≠ iface)
           before.
Proof.
  unfold _interface_to_service. intros Hfirst.
  destruct (first_bound_raises _ _ _ _ Hfirst)
    as (before & unreadable & after & Hlist & Hraise & Hbefore).
  by exists before, unreadable, after.
Qed.

Lemma interface_to_service_raises_witness :
  ∃ before unreadable after,
    _get_services Cases.vpn_first = (before ++ unreadable :: after)%list ∧
    bound_to Cases.vpn_first unreadable = Raise (KeyError "Ethernet") ∧
    Forall (λ other, ∃ elsewhere,
              bound_to Cases.vpn_first other = Ok elsewhere ∧ elsewhere ≠ "eth0") before.
Proof.
  apply (interface_to_service_raises Cases.vpn_first "eth0" (KeyError "Ethernet")).
  reflexivity.
Defined.

(** ** Reading never changes anything but the log *)

Lemma logs_only_ret {A} (a : A) : logs_only (ret a).
Proof. intros w. exists []. cbn. by rewrite add_log_nil. Qed.

Lemma logs_only_raise {A} (e : exn) : logs_only (@raise A e).
Proof. intros w. exists []. cbn. by rewrite add_log_nil. Qed.

Lemma logs_only_read {A} (f : world → result A) : logs_only (read f).
Proof. intros w. exists []. cbn. by rewrite add_log_nil. Qed.

Lemma logs_only_log_warning msg : logs_only (log_warning msg).
Proof. intros w. by exists [msg]. Qed.

Lemma logs_only_bind {A B} (m : M A) (k : A → M B) :
  logs_only m → (∀ a, logs_only (k a)) → logs_only (m ≫= k).
Proof.
  intros Hm Hk w. unfold mbind, M_bind.
  destruct (Hm w) as [msgs Hmsgs].
  destruct (m w) as [[a|e] w1]; cbn in Hmsgs; subst w1.
  - destruct (Hk a (add_log w msgs)) as [msgs' Hmsgs'].
    exists (msgs ++ msgs')%list. by rewrite Hmsgs', add_log_app.
  - by exists msgs.
Qed.

Lemma logs_only_for_each {A S} (items : list A) (body : A → S → M S) :
  (∀ x s, logs_only (body x s)) → ∀ s, logs_only (for_each items body s).
Proof.
  intros Hbody. induction items as [|x items IH]; intros s.
  - apply logs_only_ret.
  - cbn [for_each]. apply logs_only_bind; [apply Hbody|apply IH].
Qed.

Lemma logs_only_ipv4_field service ipv4Info info data :
  logs_only (ipv4_field service ipv4Info info data).
Proof.
  unfold ipv4_field.
  destruct (subscript ipv4Info info).
  - destruct (setitem2 _ _ _ _); [apply logs_only_ret|].
    apply logs_only_bind; [apply logs_only_log_warning|intros; apply logs_only_ret].
  - apply logs_only_bind; [apply logs_only_log_warning|intros; apply logs_only_ret].
Qed.

Lemma logs_only_ipv6_field service ipv6Info info data :
  logs_only (ipv6_field service ipv6Info info data).
Proof.
  unfold ipv6_field.
  destruct (subscript ipv6Info info).
  - destruct (setitem2 _ _ _ _); [apply logs_only_ret|].
    apply logs_only_bind; [apply logs_only_log_warning|intros; apply logs_only_ret].
  - apply logs_only_bind; [apply logs_only_log_warning|intros; apply logs_only_ret].
Qed.

Ltac logs_only_step :=
  first
    [ apply logs_only_ret
    | apply logs_only_raise
    | apply logs_only_read
    | apply logs_only_log_warning
    | apply logs_only_for_each; intros; first [apply logs_only_ipv4_field
                                              |apply logs_only_ipv6_field]
    | apply logs_only_bind; [|intros] ].

Lemma logs_only_get_service_info service : logs_only (_get_service_info service).
Proof.
  unfold _get_service_info.
  do 6 (apply logs_only_bind; [apply logs_only_read|intros]).
  apply logs_only_bind.
  - match goal with |- context [if ?b then _ else _] => destruct b end;
      repeat logs_only_step.
  - intros data. destruct (bool_decide _); logs_only_step.
Qed.

Lemma logs_only_get_info interface : logs_only (_get_info interface).
Proof.
  unfold _get_info. apply logs_only_bind; [apply logs_only_read|].
  intros [service|]; [apply logs_only_get_service_info|apply logs_only_read].
Qed.

Lemma logs_only_get_interfaces_details : logs_only get_interfaces_details.
Proof.
  intros w. unfold get_interfaces_details.
  apply (logs_only_for_each (host w)). intros interface interfaces.
  destruct (Z.eqb _ 0); [|apply logs_only_ret].
  apply logs_only_bind; [apply logs_only_get_info|intros; apply logs_only_ret].
Qed.

(** X5: whatever they return or raise, the read operations leave the
    daemon, the host interfaces, the configuration file and the calls issued
    to the daemon as they were; only warnings are added to the log. *)
Theorem reads_change_nothing interface w :
  let after := (_get_info interface w).2 in
  let after_all := (get_interfaces_details w).2 in
  (daemon after = daemon w ∧ config_file after = config_file w ∧
   calls after = calls w ∧ host after = host w) ∧
  (daemon after_all = daemon w ∧ config_file after_all = config_file w ∧
   calls after_all = calls w ∧ host after_all = host w).
Proof.
  cbn zeta.
  destruct (logs_only_get_info interface w) as [msgs ->].
  destruct (logs_only_get_interfaces_details w) as [msgs' ->].
  done.
Qed.

(** ** One record per interface *)

Lemma service_info_header w service data w' :
  service_info w service data w' →
  ∃ interface,
    bound_to (daemon w) service = Ok interface ∧
    data !! "connectionid" = Some (VStr interface) ∧
    data !! "label" = Some (VStr service).
Proof.
  intros [type ethernet interface address state Htype Hethernet Hinterface _ _ _
         |type ethernet interface address state ipv4Info ipv6Info nameservers
            Htype Hethernet Hinterface _ _ _ _ _ _];
    exists interface; unfold bound_to; rewrite Hethernet, bind_ok;
    (split; [done|]); unfold live_up, live_header; by simplify_map_eq.
Qed.

Lemma get_info_connectionid interface w data w' :
  _get_info interface w = (Ok data, w') →
  data !! "connectionid" = Some (VStr (pyiface.name interface)).
Proof.
  unfold _get_info. rewrite bind_read. intros H.
  destruct (_interface_to_service (daemon w) (pyiface.name interface))
    as [[service|]|] eqn:Hservice; [| |done].
  - change (_get_service_info service w = (Ok data, w')) in H.
    apply get_service_info_returns in H.
    destruct (service_info_header _ _ _ _ H) as (bound & Hbound & Hid & _).
    destruct (first_bound_found _ _ _ _ Hservice) as (_ & _ & _ & Hbound' & _).
    congruence.
  - unfold read in H. injection H as H _.
    apply get_static_info_returns in H.
    destruct H; unfold static_found, static_default; by simplify_map_eq.
Qed.

(** X6: the record _get_info returns for a host interface always carries the
    name of that interface as connectionid. Its label is the service id when
    a live service answers, and the interface name (with up=False) when the
    configuration file answers. *)
Theorem get_info_identifies_interface interface w data w' :
  _get_info interface w = (Ok data, w') →
  data !! "connectionid" = Some (VStr (pyiface.name interface)) ∧
  ((∃ service,
      _interface_to_service (daemon w) (pyiface.name interface) = Ok (Some service) ∧
      data !! "label" = Some (VStr service)) ∨
   (_interface_to_service (daemon w) (pyiface.name interface) = Ok None ∧
    data !! "label" = Some (VStr (pyiface.name interface)) ∧
    data !! "up" = Some (VBool false))).
Proof.
  unfold _get_info. rewrite bind_read. intros H.
  destruct (_interface_to_service (daemon w) (pyiface.name interface))
    as [[service|]|] eqn:Hservice; [| |done].
  - change (_get_service_info service w = (Ok data, w')) in H.
    apply get_service_info_returns in H.
    destruct (service_info_header _ _ _ _ H) as (bound & Hbound & Hid & Hlabel).
    destruct (first_bound_found _ _ _ _ Hservice) as (_ & _ & _ & Hbound' & _).
    assert (bound = pyiface.name interface) as -> by congruence.
    split; [done|]. left. by exists service.
  - unfold read in H. injection H as H _.
    apply get_static_info_returns in H.
    split; [|right; split; [done|]].
    + destruct H; unfold static_found, static_default; by simplify_map_eq.
    + destruct H; unfold static_found, static_default; by simplify_map_eq.
Qed.

Lemma get_info_identifies_interface_witness :
  static_default Sample.eth1 !! "connectionid" = Some (VStr (pyiface.name Sample.eth1)) ∧
  ((∃ service,
      _interface_to_service (daemon (Sample.box "online" "dhcp" None))
                            (pyiface.name Sample.eth1) = Ok (Some service) ∧
      static_default Sample.eth1 !! "label" = Some (VStr service)) ∨
   (_interface_to_service (daemon (Sample.box "online" "dhcp" None))
                          (pyiface.name Sample.eth1) = Ok None ∧
    static_default Sample.eth1 !! "label" = Some (VStr (pyiface.name Sample.eth1)) ∧
    static_default Sample.eth1 !! "up" = Some (VBool false))).
Proof.
  apply (get_info_identifies_interface Sample.eth1 (Sample.box "online" "dhcp" None)
           (static_default Sample.eth1) (Sample.box "online" "dhcp" None)).
  reflexivity.
Defined.

Lemma details_loop (ifaces : list pyiface.Interface) :
  ∀ (acc : list (gmap string pyval)) w infos w',
    for_each ifaces
      (λ interface (interfaces : list (gmap string pyval)),
         if Z.eqb (Z.land (pyiface.flags interface) IFF_LOOPBACK) 0
         then info ← _get_info interface; ret (interfaces ++ [info])%list
         else ret interfaces) acc w = (Ok infos, w') →
    ∃ added : list (gmap string pyval),
      infos = (acc ++ added)%list ∧
      (λ data, data !! "connectionid") <$> added
        = (λ interface, Some (VStr (pyiface.name interface)))
            <$> List.filter not_loopback ifaces.
Proof.
  induction ifaces as [|interface ifaces IH]; intros acc w infos w' H.
  - injection H as <- _. exists []. by rewrite app_nil_r.
  - cbn [for_each List.filter] in *. unfold not_loopback at 1.
    unfold mbind at 1, M_bind at 1 in H.
    destruct (Z.eqb (Z.land (pyiface.flags interface) IFF_LOOPBACK) 0).
    + unfold mbind at 1, M_bind at 1 in H.
      destruct (_get_info interface w) as [[data|] w1] eqn:Hinfo; [|done].
      cbn [ret] in H.
      destruct (IH _ _ _ _ H) as (added & -> & Hadded).
      exists (data :: added). rewrite <- app_assoc. split; [done|].
      rewrite !fmap_cons, Hadded. f_equal.
      by rewrite (get_info_connectionid _ _ _ _ Hinfo).
    + cbn [ret] in H. exact (IH _ _ _ _ H).
Qed.

(** X7: when get_interfaces_details returns, it holds one record for every
    host interface whose loopback flag is clear, in the order of the host
    enumeration, each with the interface name as connectionid; interfaces
    with the loopback flag never appear. *)
Theorem get_interfaces_details_skips_loopback w infos w' :
  get_interfaces_details w = (Ok infos, w') →
  (λ data, data !! "connectionid") <$> infos
    = (λ interface, Some (VStr (pyiface.name interface)))
        <$> List.filter not_loopback (host w).
Proof.
  unfold get_interfaces_details. intros H.
  destruct (details_loop _ _ _ _ _ H) as (added & -> & Hadded).
  by rewrite app_nil_l.
Qed.

Lemma details_on_box :
  get_interfaces_details (Sample.box "online" "dhcp" None)
    = (Ok [Sample.eth0_info "dhcp"; static_default Sample.eth1],
       add_log (Sample.box "online" "dhcp" None) Sample.eth0_warnings).
Proof.
  unfold get_interfaces_details. cbn [host Sample.box for_each].
  change (Z.eqb (Z.land (pyiface.flags Sample.lo) IFF_LOOPBACK) 0) with false.
  change (Z.eqb (Z.land (pyiface.flags Sample.eth0) IFF_LOOPBACK) 0) with true.
  change (Z.eqb (Z.land (pyiface.flags Sample.eth1) IFF_LOOPBACK) 0) with true.
  cbn iota. unfold mbind at 1, M_bind at 1, ret at 1.
  unfold mbind at 1, M_bind at 1.
  unfold mbind at 1, M_bind at 1.
  assert (_get_info Sample.eth0 (Sample.box "online" "dhcp" None)
            = (Ok (Sample.eth0_info "dhcp"),
               add_log (Sample.box "online" "dhcp" None) Sample.eth0_warnings)) as ->.
  { unfold _get_info. rewrite bind_read.
    change (_interface_to_service (daemon (Sample.box "online" "dhcp" None))
              (pyiface.name Sample.eth0)) with (@Ok (option string) (Some Sample.eth0_service)).
    apply eth0_online_dhcp. }
  unfold ret at 1.
  unfold mbind at 1, M_bind at 1.
  unfold mbind at 1, M_bind at 1.
  assert (_get_info Sample.eth1
            (add_log (Sample.box "online" "dhcp" None) Sample.eth0_warnings)
            = (Ok (static_default Sample.eth1),
               add_log (Sample.box "online" "dhcp" None) Sample.eth0_warnings)) as ->.
  { unfold _get_info. rewrite bind_read.
    change (_interface_to_service
              (daemon (add_log (Sample.box "online" "dhcp" None) Sample.eth0_warnings))
              (pyiface.name Sample.eth1)) with (@Ok (option string) None).
    unfold read. reflexivity. }
  reflexivity.
Qed.

Lemma get_interfaces_details_skips_loopback_witness :
  (λ data, data !! "connectionid")
    <$> [Sample.eth0_info "dhcp"; static_default Sample.eth1]
    = (λ interface, Some (VStr (pyiface.name interface)))
        <$> List.filter not_loopback (host (Sample.box "online" "dhcp" None)).
Proof.
  apply (get_interfaces_details_skips_loopback (Sample.box "online" "dhcp" None) _
           (add_log (Sample.box "online" "dhcp" None) Sample.eth0_warnings)).
  apply details_on_box.
Defined.

(** ** Splitting and joining *)

Lemma split_cons sep c s :
  PyStr.split sep (String c s) =
    if Ascii.eqb c sep then EmptyString :: PyStr.split sep s
    else match PyStr.split sep s with
         | [] => [String c EmptyString]
         | piece :: pieces => String c piece :: pieces
         end.
Proof. reflexivity. Qed.


Lemma split_nonempty sep s : PyStr.split sep s ≠ [].
Proof.
  destruct s as [|c s]; [done|]. rewrite split_cons.
  destruct (Ascii.eqb c sep); [done|]. by destruct (PyStr.split sep s).
Qed.





(** ** Static normalization at the edges *)

(** X8: when the file is absent, starts without a section header, or has no
    section for the interface, static normalization returns the default
    record, whose ipv4 block has no address, netmask, gateway or dns. *)
Theorem static_info_without_section interface w :
  config_file w = None ∨
  config_file w = Some MissingSectionHeader ∨
  (∃ store, config_file w = Some (Sections store) ∧
            store !! section_of (PyStr.drop_last (pyiface.hwaddr interface)) = None) →
  ∃ data block,
    _get_static_info interface w = Ok data ∧
    data !! "hwaddr" = Some (VStr (PyStr.drop_last (pyiface.hwaddr interface))) ∧
    data !! "wireless" = Some (VBool false) ∧
    data !! "ipv4" = Some (VDict block) ∧
    block !! "address" = None ∧ block !! "netmask" = None ∧
    block !! "gateway" = None ∧ block !! "dns" = None.
Proof.
  intros Hfile.
  exists (static_default interface), static_block. split.
  - apply get_static_info_total.
    destruct Hfile as [Hfile|[Hfile|(store & Hfile & Hsection)]].
    + eapply (static_info_default _ _ ∅); [by rewrite Hfile|done].
    + eapply (static_info_default _ _ ∅); [by rewrite Hfile|done].
    + eapply (static_info_default _ _ store); [by rewrite Hfile|done].
  - unfold static_default, static_block. by simplify_map_eq.
Qed.

Lemma static_info_without_section_witness :
  ∃ data block,
    _get_static_info Sample.eth1 (Sample.box "online" "dhcp" (Some MissingSectionHeader))
      = Ok data ∧
    data !! "hwaddr" = Some (VStr (PyStr.drop_last (pyiface.hwaddr Sample.eth1))) ∧
    data !! "wireless" = Some (VBool false) ∧
    data !! "ipv4" = Some (VDict block) ∧
    block !! "address" = None ∧ block !! "netmask" = None ∧
    block !! "gateway" = None ∧ block !! "dns" = None.
Proof.
  apply (static_info_without_section Sample.eth1
           (Sample.box "online" "dhcp" (Some MissingSectionHeader))).
  right. left. reflexivity.
Defined.



(** ** The Static Store beyond one upsert *)













(** ** Enabling, disabling and configuring a live service *)

Lemma issue_run c w : issue c w = (Ok (answer_to w c), after_call w c).
Proof.
  unfold issue, answer_to, after_call. by destruct (react w c (daemon w)).
Qed.

Lemma set_property_or_run str_of_service prefix path prop value w :
  set_property_or str_of_service prefix path prop value w =
    (match answer_to w (SetProperty path prop value) with
     | ReplyRaise exc =>
         Raise (CommandExecutionError
                  (prefix +:+ str_of_service path +:+ nl +:+ "Error: " +:+ exc +:+ nl))
     | _ => Ok ()
     end,
     after_call w (SetProperty path prop value)).
Proof.
  unfold set_property_or, mbind, M_bind. rewrite issue_run.
  by destruct (answer_to w (SetProperty path prop value)).
Qed.

(** X15: when the interface resolves to a service that is neither online nor
    ready, down returns True and changes nothing, while up issues exactly one
    connect for that service and turns the daemon's answer into its result:
    True for None, False for any other value, and CommandExecutionError
    'Couldn't enable service: ...' when the call raises. *)
Theorem up_down_when_idle str_of_service w interface service :
  _interface_to_service (daemon w) interface = Ok (Some service) →
  service ≠ "" →
  _connected (daemon w) service = Ok false →
  down str_of_service interface w = (Ok true, w) ∧
  up str_of_service interface w =
    (switched (answer_to w (Connect (_add_path service)))
              ("Couldn't enable service: " +:+ str_of_service (_add_path service) +:+ nl),
     after_call w (Connect (_add_path service))).
Proof.
  intros Hservice Hname Hconnected. split.
  - unfold down. rewrite bind_read, Hservice, (not_service_some _ Hname).
    change (default "" (Some service)) with service.
    by rewrite bind_read, Hconnected.
  - unfold up. rewrite bind_read, Hservice, (not_service_some _ Hname).
    change (default "" (Some service)) with service.
    rewrite bind_read, Hconnected. cbn [negb]. unfold mbind, M_bind.
    rewrite issue_run.
    by destruct (answer_to w (Connect (_add_path service))).
Qed.

Lemma up_down_when_idle_witness :
  down Sample.service_text "eth0" (Sample.box "idle" "dhcp" None)
    = (Ok true, Sample.box "idle" "dhcp" None) ∧
  up Sample.service_text "eth0" (Sample.box "idle" "dhcp" None) =
    (switched (answer_to (Sample.box "idle" "dhcp" None)
                         (Connect (_add_path Sample.eth0_service)))
              ("Couldn't enable service: "
               +:+ Sample.service_text (_add_path Sample.eth0_service) +:+ nl),
     after_call (Sample.box "idle" "dhcp" None) (Connect (_add_path Sample.eth0_service))).
Proof.
  apply (up_down_when_idle Sample.service_text (Sample.box "idle" "dhcp" None)
           "eth0" Sample.eth0_service).
  - reflexivity.
  - discriminate.
  - reflexivity.
Defined.

(** X16: when no service is bound to the interface (or the one found has an
    empty id), up, down and set_dhcp_linklocal_all raise
    CommandExecutionError 'Invalid interface name: <interface>' and change
    nothing: no call reaches the daemon and the file is not touched. *)
Theorem unresolved_interface_is_rejected str_of_service w interface service :
  _interface_to_service (daemon w) interface = Ok service →
  not_service service = true →
  up str_of_service interface w = (Raise (invalid_interface_name interface), w) ∧
  down str_of_service interface w = (Raise (invalid_interface_name interface), w) ∧
  set_dhcp_linklocal_all str_of_service interface w
    = (Raise (invalid_interface_name interface), w).
Proof.
  intros Hservice Hnot.
  unfold up, down, set_dhcp_linklocal_all.
  by rewrite !bind_read, Hservice, Hnot.
Qed.

Lemma unresolved_interface_is_rejected_witness :
  up Sample.service_text "eth1" (Sample.box "online" "dhcp" None)
    = (Raise (invalid_interface_name "eth1"), Sample.box "online" "dhcp" None) ∧
  down Sample.service_text "eth1" (Sample.box "online" "dhcp" None)
    = (Raise (invalid_interface_name "eth1"), Sample.box "online" "dhcp" None) ∧
  set_dhcp_linklocal_all Sample.service_text "eth1" (Sample.box "online" "dhcp" None)
    = (Raise (invalid_interface_name "eth1"), Sample.box "online" "dhcp" None).
Proof.
  apply (unresolved_interface_is_rejected Sample.service_text
           (Sample.box "online" "dhcp" None) "eth1" None).
  - reflexivity.
  - reflexivity.
Defined.

(** two set_property calls in one try block, then return True *)
Lemma two_properties_run str_of_service prefix first_path first_prop first_value
    second_path second_prop second_value w :
  let first := SetProperty first_path first_prop first_value in
  let second := SetProperty second_path second_prop second_value in
  ∃ outcome,
    (_ ← set_property_or str_of_service prefix first_path first_prop first_value;
     _ ← set_property_or str_of_service prefix second_path second_prop second_value;
     ret true) w = outcome ∧
    config_file outcome.2 = config_file w ∧
    (is_raise (answer_to w first) = true →
       calls outcome.2 = (calls w ++ [first])%list ∧
       ∃ msg, outcome.1 = Raise (CommandExecutionError msg)) ∧
    (is_raise (answer_to w first) = false →
       calls outcome.2 = (calls w ++ [first; second])%list ∧
       (outcome.1 = Ok true ↔ is_raise (answer_to (after_call w first) second) = false)).
Proof.
  intros first second.
  set (failure path exc :=
         Raise (A := bool)
               (CommandExecutionError
                  (prefix +:+ str_of_service path +:+ nl +:+ "Error: " +:+ exc +:+ nl))).
  assert ((_ ← set_property_or str_of_service prefix first_path first_prop first_value;
           _ ← set_property_or str_of_service prefix second_path second_prop second_value;
           ret true) w =
          match answer_to w first with
          | ReplyRaise exc => (failure first_path exc, after_call w first)
          | _ => (match answer_to (after_call w first) second with
                  | ReplyRaise exc => failure second_path exc
                  | _ => Ok true
                  end, after_call (after_call w first) second)
          end) as ->.
  { unfold mbind at 1, M_bind at 1. rewrite set_property_or_run. fold first.
    destruct (answer_to w first); [| |done];
      unfold mbind at 1, M_bind at 1; rewrite set_property_or_run; fold second;
      by destruct (answer_to (after_call w first) second). }
  eexists. split; [reflexivity|].
  destruct (answer_to w first); cbn [is_raise fst snd].
  1,2: (split; [done|]); (split; [done|]); intros _;
    (split; [cbn; by rewrite <- app_assoc|]);
    by destruct (answer_to (after_call w first) second).
  split; [done|]. split; [|done]. intros _. split; [done|]. unfold failure. eauto.
Qed.

Lemma set_dhcp_linklocal_all_run str_of_service w interface service ipv4 :
  _interface_to_service (daemon w) interface = Ok (Some service) →
  service ≠ "" →
  pyconnman.get_property (daemon w) (_add_path service) "IPv4.Configuration"
    = Ok (PDict ipv4) →
  let prefix := "Couldn't set dhcp linklocal for service: " in
  set_dhcp_linklocal_all str_of_service interface w =
    (_ ← set_property_or str_of_service prefix (_add_path service)
           "IPv4.Configuration" (PDict (dhcp_configuration ipv4));
     _ ← set_property_or str_of_service prefix (_add_path service)
           "Nameservers.Configuration" (PList [""]);
     ret true) w.
Proof.
  intros Hservice Hname Hipv4. cbn zeta.
  unfold set_dhcp_linklocal_all.
  rewrite bind_read, Hservice, (not_service_some _ Hname).
  change (default "" (Some service)) with service.
  rewrite bind_read, Hipv4.
  by do 4 (rewrite bind_read; cbn [assign]).
Qed.

(** X17: on a live service set_dhcp_linklocal_all never touches the file. It
    first sends IPv4.Configuration with Method 'dhcp' and empty Address,
    Netmask and Gateway (other keys of the dictionary it read are kept); if
    that call raises, it raises CommandExecutionError and sends nothing
    else; otherwise it sends Nameservers.Configuration [''] and returns True
    exactly when that second call does not raise. *)
Theorem set_dhcp_linklocal_all_calls str_of_service w interface service ipv4 :
  _interface_to_service (daemon w) interface = Ok (Some service) →
  service ≠ "" →
  pyconnman.get_property (daemon w) (_add_path service) "IPv4.Configuration"
    = Ok (PDict ipv4) →
  let first := SetProperty (_add_path service) "IPv4.Configuration"
                           (PDict (dhcp_configuration ipv4)) in
  let second := SetProperty (_add_path service) "Nameservers.Configuration"
                            (PList [""]) in
  let outcome := set_dhcp_linklocal_all str_of_service interface w in
  config_file outcome.2 = config_file w ∧
  (is_raise (answer_to w first) = true →
     calls outcome.2 = (calls w ++ [first])%list ∧
     ∃ msg, outcome.1 = Raise (CommandExecutionError msg)) ∧
  (is_raise (answer_to w first) = false →
     calls outcome.2 = (calls w ++ [first; second])%list ∧
     (outcome.1 = Ok true ↔ is_raise (answer_to (after_call w first) second) = false)).
Proof.
  intros Hservice Hname Hipv4 first second outcome. subst outcome.
  rewrite (set_dhcp_linklocal_all_run _ _ _ _ _ Hservice Hname Hipv4).
  destruct (two_properties_run str_of_service
              "Couldn't set dhcp linklocal for service: "
              (_add_path service) "IPv4.Configuration" (PDict (dhcp_configuration ipv4))
              (_add_path service) "Nameservers.Configuration" (PList [""]) w)
    as (outcome & -> & Hrest).
  exact Hrest.
Qed.

Lemma set_dhcp_linklocal_all_calls_witness :
  let w := Sample.box "online" "manual" None in
  let ipv4 : gmap string string := <["Method" := "manual"]> ∅ in
  let first := SetProperty (_add_path Sample.eth0_service) "IPv4.Configuration"
                           (PDict (dhcp_configuration ipv4)) in
  let second := SetProperty (_add_path Sample.eth0_service) "Nameservers.Configuration"
                            (PList [""]) in
  let outcome := set_dhcp_linklocal_all Sample.service_text "eth0" w in
  config_file outcome.2 = config_file w ∧
  (is_raise (answer_to w first) = true →
     calls outcome.2 = (calls w ++ [first])%list ∧
     ∃ msg, outcome.1 = Raise (CommandExecutionError msg)) ∧
  (is_raise (answer_to w first) = false →
     calls outcome.2 = (calls w ++ [first; second])%list ∧
     (outcome.1 = Ok true ↔ is_raise (answer_to (after_call w first) second) = false)).
Proof.
  apply (set_dhcp_linklocal_all_calls Sample.service_text
           (Sample.box "online" "manual" None) "eth0" Sample.eth0_service
           (<["Method" := "manual"]> ∅)).
  - reflexivity.
  - discriminate.
  - reflexivity.
Defined.

Lemma truthy_servers nameservers :
  truthy nameservers = true →
  truthy (OList (servers_sent nameservers)) = true.
Proof.
  destruct nameservers as [s|l|]; [|done|done].
  intros _. cbn. apply negb_true_iff, bool_decide_eq_false_2, split_nonempty.
Qed.

Lemma set_static_all_live_run py ipv4_addr netmask str_of_service
    w interface address mask gateway nameservers service ipv4 :
  _interface_to_service (daemon w) interface = Ok (Some service) →
  service ≠ "" →
  (_validate_ipv4 ipv4_addr netmask [address; mask; gateway]).1 = true →
  (truthy nameservers = true → (_space_delimited_list py nameservers).1 = true) →
  pyconnman.get_property (daemon w) (_add_path service) "IPv4.Configuration"
    = Ok (PDict ipv4) →
  let prefix := "Couldn't set manual settings for service: " in
  set_static_all py ipv4_addr netmask str_of_service
      interface address mask gateway nameservers w =
    (_ ← set_property_or str_of_service prefix (_add_path service) "IPv4.Configuration"
           (PDict (manual_configuration ipv4 address mask gateway));
     _ ← (if truthy nameservers
          then set_property_or str_of_service prefix (_add_path service)
                 "Nameservers.Configuration" (PList (servers_sent nameservers))
          else ret ());
     ret true) w.
Proof.
  intros Hservice Hname Hvalid Hlist Hipv4. cbn zeta.
  unfold set_static_all.
  rewrite bind_read, Hservice, (not_service_some _ Hname).
  destruct (_validate_ipv4 ipv4_addr netmask [address; mask; gateway])
    as [validate msg]. cbn [fst] in Hvalid. subst validate. cbn [negb].
  destruct (truthy nameservers) eqn:Htruthy.
  - specialize (Hlist eq_refl).
    destruct (_space_delimited_list py nameservers) as [valid msg'].
    cbn [fst] in Hlist. subst valid. cbn [negb].
    assert ((if negb (is_list nameservers)
             then read (λ _, split_space nameservers)
             else ret nameservers) w = (Ok (OList (servers_sent nameservers)), w)) as Hsplit.
    { by destruct nameservers. }
    unfold mbind at 1, M_bind at 1. rewrite Hsplit.
    rewrite bind_read, Hservice, (not_service_some _ Hname).
    change (default "" (Some service)) with service.
    rewrite bind_read, Hipv4.
    do 4 (rewrite bind_read; cbn [assign]).
    fold (manual_configuration ipv4 address mask gateway).
    rewrite (truthy_servers _ Htruthy).
    unfold mbind at 4, M_bind at 4. unfold read at 1. cbn [dbus_strings].
    reflexivity.
  - unfold mbind at 1, M_bind at 1, ret at 1.
    rewrite bind_read, Hservice, (not_service_some _ Hname).
    change (default "" (Some service)) with service.
    rewrite bind_read, Hipv4.
    do 4 (rewrite bind_read; cbn [assign]).
    fold (manual_configuration ipv4 address mask gateway).
    by rewrite Htruthy.
Qed.

(** X18: with a live service and valid input, set_static_all never touches
    the file. It sends IPv4.Configuration with Method 'manual' and the three
    values; when nameservers are given it then sends them as
    Nameservers.Configuration - a str is cut at every single blank. If the
    first call raises nothing else is sent; if the second one raises, the
    first stays applied and the call fails: there is no rollback. *)
Theorem set_static_all_live_calls py ipv4_addr netmask str_of_service
    w interface address mask gateway nameservers service ipv4 :
  _interface_to_service (daemon w) interface = Ok (Some service) →
  service ≠ "" →
  (_validate_ipv4 ipv4_addr netmask [address; mask; gateway]).1 = true →
  (truthy nameservers = true → (_space_delimited_list py nameservers).1 = true) →
  pyconnman.get_property (daemon w) (_add_path service) "IPv4.Configuration"
    = Ok (PDict ipv4) →
  let first := SetProperty (_add_path service) "IPv4.Configuration"
                 (PDict (manual_configuration ipv4 address mask gateway)) in
  let second := SetProperty (_add_path service) "Nameservers.Configuration"
                  (PList (servers_sent nameservers)) in
  let outcome := set_static_all py ipv4_addr netmask str_of_service
                   interface address mask gateway nameservers w in
  config_file outcome.2 = config_file w ∧
  (is_raise (answer_to w first) = true →
     calls outcome.2 = (calls w ++ [first])%list ∧
     ∃ msg, outcome.1 = Raise (CommandExecutionError msg)) ∧
  (is_raise (answer_to w first) = false → truthy nameservers = false →
     calls outcome.2 = (calls w ++ [first])%list ∧ outcome.1 = Ok true) ∧
  (is_raise (answer_to w first) = false → truthy nameservers = true →
     calls outcome.2 = (calls w ++ [first; second])%list ∧
     (outcome.1 = Ok true ↔ is_raise (answer_to (after_call w first) second) = false)).
Proof.
  intros Hservice Hname Hvalid Hlist Hipv4 first second outcome. subst outcome.
  rewrite (set_static_all_live_run _ _ _ _ _ _ _ _ _ _ _ _
             Hservice Hname Hvalid Hlist Hipv4).
  destruct (truthy nameservers).
  - destruct (two_properties_run str_of_service
                "Couldn't set manual settings for service: "
                (_add_path service) "IPv4.Configuration"
                (PDict (manual_configuration ipv4 address mask gateway))
                (_add_path service) "Nameservers.Configuration"
                (PList (servers_sent nameservers)) w)
      as (outcome & -> & Hfile & Hfirst & Hboth).
    split; [done|]. split; [done|]. split; [done|]. intros Hok _. by apply Hboth.
  - set (run := (_ ← set_property_or _ _ _ _ _; _ ← ret (); ret true) w).
    assert (run = (match answer_to w first with
                   | ReplyRaise exc =>
                       Raise (CommandExecutionError
                                ("Couldn't set manual settings for service: "
                                 +:+ str_of_service (_add_path service) +:+ nl
                                 +:+ "Error: " +:+ exc +:+ nl))
                   | _ => Ok true
                   end, after_call w first)) as ->.
    { subst run. unfold mbind at 1, M_bind at 1. rewrite set_property_or_run.
      fold first. by destruct (answer_to w first). }
    destruct (answer_to w first); cbn [is_raise fst snd];
      (split; [done|]); (split; [|split]); try done.
    intros _. split; [done|]. eauto.
Qed.

Lemma set_static_all_live_calls_witness :
  let w := Sample.box "online" "manual" None in
  let nameservers := OStr "8.8.8.8 8.8.4.4" in
  let first := SetProperty (_add_path Sample.eth0_service) "IPv4.Configuration"
                 (PDict (manual_configuration (<["Method" := "manual"]> ∅)
                                              "10.0.0.5" "255.255.255.0" "10.0.0.1")) in
  let second := SetProperty (_add_path Sample.eth0_service) "Nameservers.Configuration"
                  (PList (servers_sent nameservers)) in
  let outcome := set_static_all Py3 Sample.dotted_quad Sample.dotted_quad
                   Sample.service_text "eth0" "10.0.0.5" "255.255.255.0" "10.0.0.1"
                   nameservers w in
  config_file outcome.2 = config_file w ∧
  (is_raise (answer_to w first) = true →
     calls outcome.2 = (calls w ++ [first])%list ∧
     ∃ msg, outcome.1 = Raise (CommandExecutionError msg)) ∧
  (is_raise (answer_to w first) = false → truthy nameservers = false →
     calls outcome.2 = (calls w ++ [first])%list ∧ outcome.1 = Ok true) ∧
  (is_raise (answer_to w first) = false → truthy nameservers = true →
     calls outcome.2 = (calls w ++ [first; second])%list ∧
     (outcome.1 = Ok true ↔ is_raise (answer_to (after_call w first) second) = false)).
Proof.
  apply (set_static_all_live_calls Py3 Sample.dotted_quad Sample.dotted_quad
           Sample.service_text (Sample.box "online" "manual" None)
           "eth0" "10.0.0.5" "255.255.255.0" "10.0.0.1" (OStr "8.8.8.8 8.8.4.4")
           Sample.eth0_service (<["Method" := "manual"]> ∅)).
  - reflexivity.
  - discriminate.
  - reflexivity.
  - reflexivity.
  - reflexivity.
Defined.

(** ** The validators, completely *)

(** X19: _validate_ipv4 accepts a triple exactly when the stripped address,
    netmask and gateway pass their checks, in which case the message is
    empty; otherwise the fields are tested in the order address, netmask,
    gateway and the first one that fails is the one reported. *)
Theorem validate_ipv4_decides ipv4_addr netmask address mask gateway :
  let verdict := _validate_ipv4 ipv4_addr netmask [address; mask; gateway] in
  (verdict.1 = true ↔
     ipv4_addr (PyStr.strip address) = true ∧
     netmask (PyStr.strip mask) = true ∧
     ipv4_addr (PyStr.strip gateway) = true) ∧
  (verdict.1 = true → verdict.2 = "") ∧
  (ipv4_addr (PyStr.strip address) = false →
     verdict = (false, "Invalid ip address: " +:+ address +:+ " for ipv4 option")) ∧
  (ipv4_addr (PyStr.strip address) = true → netmask (PyStr.strip mask) = false →
     verdict = (false, "Invalid netmask: " +:+ mask +:+ " for ipv4 option")) ∧
  (ipv4_addr (PyStr.strip address) = true → netmask (PyStr.strip mask) = true →
   ipv4_addr (PyStr.strip gateway) = false →
     verdict = (false, "Invalid gateway: " +:+ gateway +:+ " for ipv4 option")).
Proof.
  cbn zeta. unfold _validate_ipv4.
  destruct (ipv4_addr (PyStr.strip address)), (netmask (PyStr.strip mask)),
    (ipv4_addr (PyStr.strip gateway)); cbn; intuition congruence.
Qed.

Lemma validate_ipv4_decides_witness :
  let verdict := _validate_ipv4 Sample.dotted_quad Sample.dotted_quad
                   ["10.0.0.5"; "255.255.255"; "10.0.0.1"] in
  (verdict.1 = true ↔
     Sample.dotted_quad (PyStr.strip "10.0.0.5") = true ∧
     Sample.dotted_quad (PyStr.strip "255.255.255") = true ∧
     Sample.dotted_quad (PyStr.strip "10.0.0.1") = true) ∧
  (verdict.1 = true → verdict.2 = "") ∧
  (Sample.dotted_quad (PyStr.strip "10.0.0.5") = false →
     verdict = (false, "Invalid ip address: " +:+ "10.0.0.5" +:+ " for ipv4 option")) ∧
  (Sample.dotted_quad (PyStr.strip "10.0.0.5") = true →
   Sample.dotted_quad (PyStr.strip "255.255.255") = false →
     verdict = (false, "Invalid netmask: " +:+ "255.255.255" +:+ " for ipv4 option")) ∧
  (Sample.dotted_quad (PyStr.strip "10.0.0.5") = true →
   Sample.dotted_quad (PyStr.strip "255.255.255") = true →
   Sample.dotted_quad (PyStr.strip "10.0.0.1") = false →
     verdict = (false, "Invalid gateway: " +:+ "10.0.0.1" +:+ " for ipv4 option")).
Proof.
  exact (validate_ipv4_decides Sample.dotted_quad Sample.dotted_quad
           "10.0.0.5" "255.255.255" "10.0.0.1").
Defined.

(** ** get_interface *)

Lemma first_record_by_name (infos : list (gmap string pyval)) (names : list string) iface :
  (λ data, data !! "connectionid") <$> infos = (λ name, Some (VStr name)) <$> names →
  (iface ∈ names →
   ∃ record, record ∈ infos ∧ record !! "connectionid" = Some (VStr iface) ∧
             first_record infos iface = Ok (Some (_dict_to_string record))) ∧
  (iface ∉ names → first_record infos iface = Ok None).
Proof.
  revert names. induction infos as [|record infos IH]; intros [|name names] Hnames;
    try done.
  - split; [by intros ?%elem_of_nil|done].
  - rewrite !fmap_cons in Hnames. injection Hnames as Hrecord Hrest.
    destruct (IH _ Hrest) as [Hfound Hmissing].
    cbn [first_record]. rewrite Hrecord. cbn [is_text].
    destruct (String.eqb name iface) eqn:Heq.
    + apply String.eqb_eq in Heq. subst name. split.
      * intros _. exists record. split; [by left|done].
      * intros Hnot. exfalso. apply Hnot. by left.
    + apply String.eqb_neq in Heq. split.
      * intros [?|Hin]%elem_of_cons; [done|].
        destruct (Hfound Hin) as (found & Hin' & Hid & Hrun).
        exists found. split; [by right|done].
      * intros Hnot. apply Hmissing. intros Hin. apply Hnot. by right.
Qed.

Lemma details_names w infos w' :
  get_interfaces_details w = (Ok infos, w') →
  (λ data, data !! "connectionid") <$> infos
    = (λ name, Some (VStr name)) <$> reported_names (host w).
Proof.
  unfold get_interfaces_details. intros H.
  destruct (details_loop _ _ _ _ _ H) as (added & -> & Hadded).
  rewrite app_nil_l, Hadded. unfold reported_names.
  by rewrite <- list_fmap_compose.
Qed.

(** X20: when the details can be read, get_interface returns the printed
    record of the interface for every name of a host interface whose
    loopback flag is clear, and None for every other name - a loopback
    interface or a name the host does not have. *)
Theorem get_interface_by_name w infos w' iface :
  get_interfaces_details w = (Ok infos, w') →
  (iface ∈ reported_names (host w) →
   ∃ record, record ∈ infos ∧ record !! "connectionid" = Some (VStr iface) ∧
             get_interface iface w = (Ok (Some (_dict_to_string record)), w')) ∧
  (iface ∉ reported_names (host w) → get_interface iface w = (Ok None, w')).
Proof.
  intros Hdetails.
  destruct (first_record_by_name infos (reported_names (host w)) iface
              (details_names _ _ _ Hdetails)) as [Hfound Hmissing].
  unfold get_interface, mbind, M_bind. rewrite Hdetails. unfold read. split.
  - intros Hin. destruct (Hfound Hin) as (record & Hrecord & Hid & ->).
    by exists record.
  - intros Hnot. by rewrite (Hmissing Hnot).
Qed.

Lemma get_interface_by_name_witness :
  let w := Sample.box "online" "dhcp" None in
  let infos := [Sample.eth0_info "dhcp"; static_default Sample.eth1] in
  let w' := add_log w Sample.eth0_warnings in
  ("lo" ∈ reported_names (host w) →
   ∃ record, record ∈ infos ∧ record !! "connectionid" = Some (VStr "lo") ∧
             get_interface "lo" w = (Ok (Some (_dict_to_string record)), w')) ∧
  ("lo" ∉ reported_names (host w) → get_interface "lo" w = (Ok None, w')).
Proof.
  apply (get_interface_by_name (Sample.box "online" "dhcp" None)
           [Sample.eth0_info "dhcp"; static_default Sample.eth1]
           (add_log (Sample.box "online" "dhcp" None) Sample.eth0_warnings) "lo").
  apply details_on_box.
Defined.

(** ** build_interface *)

Lemma logs_only_get_interface iface : logs_only (get_interface iface).
Proof.
  unfold get_interface.
  apply logs_only_bind; [apply logs_only_get_interfaces_details|].
  intros. apply logs_only_read.
Qed.

Lemma at_most_connect_refl w : at_most_connect w w.
Proof. split; [done|by left]. Qed.

Lemma at_most_connect_log w w1 msgs :
  at_most_connect w w1 → at_most_connect w (add_log w1 msgs).
Proof. by intros [Hfile Hcalls]. Qed.

Lemma up_at_most_connect str_of_service iface w :
  at_most_connect w (up str_of_service iface w).2.
Proof.
  unfold up. rewrite bind_read.
  destruct (_interface_to_service (daemon w) iface) as [service|];
    [|apply at_most_connect_refl].
  destruct (not_service service); [apply at_most_connect_refl|].
  rewrite bind_read.
  destruct (_connected (daemon w) (default "" service)) as [[]|];
    try apply at_most_connect_refl.
  cbn [negb]. unfold mbind, M_bind. rewrite issue_run.
  destruct (answer_to w _); (split; [done|]); right; by eexists.
Qed.

(** what build_interface does once the protocol has been dealt with *)
Lemma enable_and_read str_of_service iface (enable : bool) w :
  at_most_connect w
    ((_ ← (if enable then _ ← up str_of_service iface; ret () else ret ());
      get_interface iface) w).2.
Proof.
  unfold mbind at 1, M_bind at 1.
  assert (∃ r w1, (if enable then _ ← up str_of_service iface; ret () else ret ()) w
                  = (r, w1) ∧ at_most_connect w w1) as (r & w1 & -> & Hw1).
  { destruct enable.
    - unfold mbind, M_bind.
      pose proof (up_at_most_connect str_of_service iface w) as Hup.
      destruct (up str_of_service iface w) as [[b|e] w1]; by eexists _, _.
    - eexists _, _. split; [done|apply at_most_connect_refl]. }
  destruct r as [[]|e]; [|done].
  destruct (logs_only_get_interface iface w1) as [msgs ->].
  by apply at_most_connect_log.
Qed.

(** X21: build_interface refuses what it does not support before doing
    anything: an interface type other than 'eth' raises 'Interface type not
    supported: <type>:', and a proto setting that is neither 'dhcp' nor
    'static' raises 'Protocol type: <proto> is not supported'; in both cases
    the world is left as it was. *)
Theorem build_interface_rejects_unsupported str_of_service iface iface_type
    (enable : bool) settings w :
  (iface_type ≠ "eth" →
   build_interface str_of_service iface iface_type enable settings w
     = (Raise (CommandExecutionError
                 ("Interface type not supported: " +:+ iface_type +:+ ":")), w)) ∧
  (∀ proto, settings !! "proto" = Some proto →
            arg_is proto "dhcp" = false → arg_is proto "static" = false →
   build_interface str_of_service iface "eth" enable settings w
     = (Raise (CommandExecutionError
                 ("Protocol type: " +:+ format_obj proto +:+ " is not supported")), w)).
Proof.
  split.
  - intros Htype. unfold build_interface.
    apply String.eqb_neq in Htype. by rewrite Htype.
  - intros proto Hproto Hdhcp Hstatic. unfold build_interface.
    change (negb (String.eqb "eth" "eth")) with false. cbn iota.
    rewrite Hproto, Hdhcp, Hstatic. reflexivity.
Qed.

Lemma build_interface_rejects_unsupported_witness :
  let settings : gmap string pyobj := <["proto" := OStr "bootp"]> ∅ in
  let w := Sample.box "online" "dhcp" None in
  ("wifi" ≠ "eth" →
   build_interface Sample.service_text "eth0" "wifi" true settings w
     = (Raise (CommandExecutionError
                 ("Interface type not supported: " +:+ "wifi" +:+ ":")), w)) ∧
  (∀ proto, settings !! "proto" = Some proto →
            arg_is proto "dhcp" = false → arg_is proto "static" = false →
   build_interface Sample.service_text "eth0" "eth" true settings w
     = (Raise (CommandExecutionError
                 ("Protocol type: " +:+ format_obj proto +:+ " is not supported")), w)).
Proof.
  exact (build_interface_rejects_unsupported Sample.service_text "eth0" "wifi" true
           (<["proto" := OStr "bootp"]> ∅) (Sample.box "online" "dhcp" None)).
Defined.

(** X22: with proto 'static' build_interface configures nothing: whatever
    the other settings are and whatever it returns or raises, the
    configuration file is unchanged and no set_property call reaches the
    daemon - the only call it can issue is the connect of up, when enable is
    set. The address, netmask, gateway and dns it reads from the settings
    are not applied. *)
Theorem build_interface_static_applies_nothing str_of_service iface
    (enable : bool) settings w proto :
  settings !! "proto" = Some proto →
  arg_is proto "static" = true →
  let after := (build_interface str_of_service iface "eth" enable settings w).2 in
  config_file after = config_file w ∧
  (calls after = calls w ∨
   (enable = true ∧ ∃ path, calls after = (calls w ++ [Connect path])%list)).
Proof.
  intros Hproto Hstatic.
  assert (proto = OStr "static") as ->.
  { destruct proto as [text| |]; try done. cbn in Hstatic.
    by apply String.eqb_eq in Hstatic as ->. }
  cbn zeta.
  remember (build_interface str_of_service iface "eth" enable settings w) as outcome
    eqn:Hout.
  unfold build_interface in Hout.
  change (negb (String.eqb "eth" "eth")) with false in Hout. cbn iota in Hout.
  rewrite Hproto in Hout. cbn [arg_is] in Hout.
  change (String.eqb "static" "dhcp") with false in Hout.
  change (negb (String.eqb "static" "static")) with false in Hout. cbn iota in Hout.
  unfold mbind at 1, M_bind at 1 in Hout.
  assert (∃ r,
    (address ← read (λ _, setting settings "ipaddr");
     netmask ← read (λ _, setting settings "netmask");
     gateway ← read (λ _, setting settings "gateway");
     dns ← read (λ _, collect_dns (map_to_list settings) []);
     ret ()) w = (r, w)) as [r Hread].
  { rewrite bind_read. destruct (setting settings "ipaddr"); [|by eexists].
    rewrite bind_read. destruct (setting settings "netmask"); [|by eexists].
    rewrite bind_read. destruct (setting settings "gateway"); [|by eexists].
    rewrite bind_read. destruct (collect_dns _ _); by eexists. }
  rewrite Hread in Hout.
  destruct r as [[]|e]; [|subst outcome; split; [done|by left]].
  pose proof (enable_and_read str_of_service iface enable w) as [Hfile Hcalls].
  rewrite <- Hout in Hfile, Hcalls.
  split; [done|]. destruct Hcalls as [Hcalls|Hcalls]; [by left|].
  destruct enable; [by right|].
  left. subst outcome. unfold mbind at 1, M_bind at 1, ret at 1.
  by destruct (logs_only_get_interface iface w) as [msgs ->].
Qed.

Lemma build_interface_static_applies_nothing_witness :
  let settings : gmap string pyobj :=
    <["proto" := OStr "static"]>
      (<["ipaddr" := OStr "10.0.0.5"]>
         (<["netmask" := OStr "255.255.255.0"]>
            (<["gateway" := OStr "10.0.0.1"]> ∅))) in
  let w := Sample.box "online" "dhcp" None in
  let after := (build_interface Sample.service_text "eth0" "eth" true settings w).2 in
  config_file after = config_file w ∧
  (calls after = calls w ∨
   (true = true ∧ ∃ path, calls after = (calls w ++ [Connect path])%list)).
Proof.
  apply (build_interface_static_applies_nothing Sample.service_text "eth0" true
           _ (Sample.box "online" "dhcp" None) (OStr "static")).
  - reflexivity.
  - reflexivity.
Defined.

(** X23: without a proto setting, or with proto 'dhcp', build_interface
    starts with set_dhcp_linklocal_all: when that raises, build_interface
    raises the same exception from the same world and up is not attempted. *)
Theorem build_interface_dhcp_failure str_of_service iface (enable : bool) settings w e w1 :
  settings !! "proto" = None ∨
  (∃ proto, settings !! "proto" = Some proto ∧ arg_is proto "dhcp" = true) →
  set_dhcp_linklocal_all str_of_service iface w = (Raise e, w1) →
  build_interface str_of_service iface "eth" enable settings w = (Raise e, w1).
Proof.
  intros Hproto Hdhcp. unfold build_interface.
  change (negb (String.eqb "eth" "eth")) with false. cbn iota.
  destruct Hproto as [->|(proto & -> & ->)];
    unfold mbind, M_bind; by rewrite Hdhcp.
Qed.

Lemma build_interface_dhcp_failure_witness :
  build_interface Sample.service_text "eth1" "eth" true ∅
      (Sample.box "online" "dhcp" None)
    = (Raise (invalid_interface_name "eth1"), Sample.box "online" "dhcp" None).
Proof.
  apply (build_interface_dhcp_failure Sample.service_text "eth1" true ∅
           (Sample.box "online" "dhcp" None)).
  - left. reflexivity.
  - reflexivity.
Defined.

(** ** The nameserver validator on Python 2 *)

Lemma split_ws_from_nil cur s :
  PyStr.split_ws_from cur s = [] ↔ cur = "" ∧ blank s = true.
Proof.
  revert cur. induction s as [|c s IH]; intros cur; cbn [PyStr.split_ws_from blank].
  - destruct (String.eqb cur "") eqn:Hcur.
    + apply String.eqb_eq in Hcur. by subst.
    + apply String.eqb_neq in Hcur. split; [done|by intros [? _]].
  - destruct (PyStr.is_space c); cbn [andb].
    + destruct (String.eqb cur "") eqn:Hcur.
      * apply String.eqb_eq in Hcur. subst cur. rewrite IH. tauto.
      * apply String.eqb_neq in Hcur. split; [done|by intros [? _]].
    + rewrite IH. split; [by intros [? _]|by intros [_ ?]].
Qed.

(** X24: on Python 2, where a str has no __iter__, the validator rejects a
    str exactly when it consists of whitespace only (the empty str
    included), with the message '<value> is not a valid list.'; every list
    is accepted, and None is rejected with 'None is not a valid list.'. *)
Theorem space_delimited_list_on_python2 s l :
  _space_delimited_list Py2 (OStr s) =
    (if blank s then (false, s +:+ " is not a valid list." +:+ nl)
     else (true, "space-delimited string")) ∧
  _space_delimited_list Py2 (OList l) = (true, "space-delimited string") ∧
  _space_delimited_list Py2 ONone = (false, "None is not a valid list." +:+ nl).
Proof.
  split; [|done]. unfold _space_delimited_list. cbn [has_iter format_obj].
  pose proof (split_ws_from_nil "" s) as Hnil. fold (PyStr.split_ws s) in Hnil.
  destruct (PyStr.split_ws s) as [|token tokens], (blank s); try done.
  - by destruct (proj1 Hnil eq_refl) as [_ ?].
  - by pose proof (proj2 Hnil (conj eq_refl eq_refl)).
Qed.

(** ** Live normalization, field by field *)

(** X25: whenever live normalization returns a record, the record has no
    ipv6 key; for a service that is ready or online the last three entries
    added to the log are the warnings for the IPv6 Address, Prefix and
    Gateway, whether or not the daemon reports those values. *)
Theorem ipv6_is_never_reported service w data w' :
  _get_service_info service w = (Ok data, w') →
  data !! "ipv6" = None ∧
  (data !! "up" = Some (VBool true) →
   ∃ before : list string,
     log w' = (log w ++ before ++ [warn_ipv6 "Address" service;
                                   warn_ipv6 "Prefix" service;
                                   warn_ipv6 "Gateway" service])%list).
Proof.
  intros H. split; [by eapply ipv6_never_in_result|].
  apply get_service_info_returns in H.
  destruct H as [type ethernet interface address state|].
  - rewrite lookup_insert_eq. by intros [=].
  - intros _. eexists. reflexivity.
Qed.

Lemma ipv6_is_never_reported_witness :
  Sample.eth0_info "dhcp" !! "ipv6" = None ∧
  (Sample.eth0_info "dhcp" !! "up" = Some (VBool true) →
   ∃ before : list string,
     log (add_log (Sample.box "online" "dhcp" None) Sample.eth0_warnings)
       = (log (Sample.box "online" "dhcp" None) ++ before ++
            [warn_ipv6 "Address" Sample.eth0_service;
             warn_ipv6 "Prefix" Sample.eth0_service;
             warn_ipv6 "Gateway" Sample.eth0_service])%list).
Proof.
  exact (ipv6_is_never_reported Sample.eth0_service (Sample.box "online" "dhcp" None)
           _ _ eth0_online_dhcp).
Defined.




(** X27: set_static_all asks for a live service before it looks at its
    arguments: when none is bound to the interface it raises 'Invalid
    interface name: <interface>' and changes nothing, whether or not the
    host has the interface and whether or not the triple and the
    nameservers are valid. *)
Theorem set_static_all_requires_live_service py ipv4_addr netmask str_of_service
    w interface address mask gateway nameservers service :
  _interface_to_service (daemon w) interface = Ok service →
  not_service service = true →
  let outcome := set_static_all py ipv4_addr netmask str_of_service
                   interface address mask gateway nameservers w in
  outcome.1 = Raise (CommandExecutionError ("Invalid interface name: " +:+ interface)) ∧
  outcome.2 = w.
Proof.
  intros Hservice Hnot. cbn zeta. unfold set_static_all.
  rewrite bind_read, Hservice, Hnot. by split.
Qed.

Lemma set_static_all_requires_live_service_witness :
  let outcome := set_static_all Py3 Sample.dotted_quad Sample.dotted_quad
                   Sample.service_text "eth1" "not an address" "255.255.255.0"
                   "10.0.0.1" (OStr "8.8.8.8") (Sample.box "online" "dhcp" None) in
  outcome.1 = Raise (CommandExecutionError ("Invalid interface name: " +:+ "eth1")) ∧
  outcome.2 = Sample.box "online" "dhcp" None.
Proof.
  apply (set_static_all_requires_live_service Py3 Sample.dotted_quad Sample.dotted_quad
           Sample.service_text (Sample.box "online" "dhcp" None) "eth1"
           "not an address" "255.255.255.0" "10.0.0.1" (OStr "8.8.8.8") None).
  - reflexivity.
  - reflexivity.
Defined.
